(** * pysam: the samtools command dispatcher

    A shallow embedding of [pysam/__init__.py]: the exception class
    [SamtoolsError], the class [SamtoolsDispatcher] with its methods
    [__init__], [__call__], [getMessages] and [usage], and the table
    [SAMTOOLS_DISPATCH].

    The native entry point [csamtools._samtools_dispatch] is an external
    collaborator: it is a parameter of the development, a function of the
    outside world that returns the triple (retval, stderr, stdout) and the
    new state of the world. *)

From Stdlib Require Import ZArith String Ascii List Bool Lia Permutation.
From Stdlib Require Import DecimalString DecimalZ DecimalPos.
From stdpp Require Import base option list gmap strings.

Local Open Scope Z_scope.
Local Open Scope string_scope.
Local Open Scope list_scope.
Local Open Scope stdpp_scope.

(** ** Python values and strings *)

Module Py.

(** The values a keyword argument can carry, as far as the dispatcher
    looks at them: [kwargs.get("raw")] is only tested for truth. *)
Inductive value : Type :=
| None_
| Bool (b : bool)
| Int (z : Z)
| Str (s : string).

(** Python's truth value testing. *)
Definition truthy (v : value) : bool :=
  match v with
  | None_ => false
  | Bool b => b
  | Int z => negb (z =? 0)%Z
  | Str s => negb (String.eqb s "")
  end.

(** [d.get(k)]: the value stored under [k], [None] when there is none. *)
Definition get (d : gmap string value) (k : string) : value :=
  match d !! k with
  | Some v => v
  | None => None_
  end.

(** The truth value of an [int], of a [str] and of a list. *)
Definition int_truthy (z : Z) : bool := negb (z =? 0)%Z.

Definition str_truthy (s : string) : bool :=
  match s with
  | EmptyString => false
  | String _ _ => true
  end.

Definition list_truthy {A : Type} (l : list A) : bool :=
  match l with
  | [] => false
  | _ :: _ => true
  end.

(** [x.startswith(p)] *)
Fixpoint startswith (x p : string) {struct p} : bool :=
  match p with
  | EmptyString => true
  | String c p' =>
      match x with
      | EmptyString => false
      | String d x' => Ascii.eqb d c && startswith x' p'
      end
  end.

(** [sep.join(l)] *)
Definition join (sep : string) (l : list string) : string :=
  String.concat sep l.

(** The line feed, [Python's "\n"]. *)
Definition nl : string := String (ascii_of_nat 10) EmptyString.

(** ['%i' % z]: the decimal numeral of an integer, with a minus sign
    when it is negative. *)
Definition format_i (z : Z) : string :=
  NilZero.string_of_int (Z.to_int z).

(** [o in t] for a tuple of strings. *)
Definition contains (t : list string) (o : string) : bool :=
  existsb (String.eqb o) t.

End Py.

(** [sub] occurs in [s] as a contiguous piece. *)
Definition occurs_in (sub s : string) : Prop :=
  exists pre post, s = pre +:+ sub +:+ post.

(** ** The exception *)

Record SamtoolsError : Type := mkSamtoolsError { value : string }.

(** How a method call ends: with a value or with a raised exception. *)
Inductive completion (A : Type) : Type :=
| Return (a : A)
| Raise (e : SamtoolsError).

Arguments Return {A} a.
Arguments Raise {A} e.

Definition raises {A : Type} (c : completion A) : bool :=
  match c with
  | Return _ => false
  | Raise _ => true
  end.

(** What [__call__] hands back: the captured standard output, or the
    object a parser made of it. *)
Inductive result (R : Type) : Type :=
| Stdout (s : string)
| Parsed (r : R).

Arguments Stdout {R} s.
Arguments Parsed {R} r.

(** ** The dispatcher object *)

(** A parser binding: the options it requires and the parser. *)
Definition binding (R : Type) : Type := (list string * (string -> R))%type.

Record SamtoolsDispatcher (R : Type) : Type := mkSamtoolsDispatcher {
  dispatch : string;
  parsers : option (list (binding R));
  stderr : list string
}.

Arguments mkSamtoolsDispatcher {R} _ _ _.
Arguments dispatch {R} _.
Arguments parsers {R} _.
Arguments stderr {R} _.

(** The truth value of [self.parsers]: [None] and the empty tuple are
    false. *)
Definition parsers_truthy {R : Type} (p : option (list (binding R))) : bool :=
  match p with
  | None => false
  | Some l => Py.list_truthy l
  end.

(** What one run of the native routine gives back. *)
Record Outcome : Type := mkOutcome {
  retval : Z;
  stderr_lines : list string;
  stdout : string
}.

(** The store a method runs in: the dispatcher object [self], the world
    the native routine acts on, and the log of the calls made to the
    native routine (command identifier and arguments), oldest first. *)
Record Store (World R : Type) : Type := mkStore {
  self : SamtoolsDispatcher R;
  world : World;
  log : list (string * list string)
}.

Arguments mkStore {World R} _ _ _.
Arguments self {World R} _.
Arguments world {World R} _.
Arguments log {World R} _.

(** ** The monad of method bodies: state, and exceptions that keep the
    state reached when they are raised *)

Definition M (World R A : Type) : Type :=
  Store World R -> completion A * Store World R.

Section Monad.
Context {World R : Type}.

Definition ret {A : Type} (a : A) : M World R A :=
  fun s => (Return a, s).

Definition bind {A B : Type} (m : M World R A) (k : A -> M World R B)
  : M World R B :=
  fun s =>
    match m s with
    | (Return a, s') => k a s'
    | (Raise e, s') => (Raise e, s')
    end.

Definition raise {A : Type} (e : SamtoolsError) : M World R A :=
  fun s => (Raise e, s).

Definition get_self : M World R (SamtoolsDispatcher R) :=
  fun s => (Return (self s), s).

(** [self.stderr = v] *)
Definition set_stderr (v : list string) : M World R unit :=
  fun s =>
    (Return tt,
     mkStore (mkSamtoolsDispatcher (dispatch (self s)) (parsers (self s)) v)
             (world s) (log s)).
End Monad.

Notation "x <- m ;; k" := (bind m (fun x => k))
  (at level 100, m at next level, right associativity).
Notation "m ;;; k" := (bind m (fun _ => k))
  (at level 100, right associativity).

(** ** The methods *)

Section Dispatcher.
Context {World R : Type}.

(** [csamtools._samtools_dispatch(method, args)] *)
Variable _samtools_dispatch : string -> list string -> World -> Outcome * World.

(** Modelled from the spec: the default of the parameter [args] of
    [_samtools_dispatch], whose definition is in the extension module
    csamtools; the executor is "called with zero args for the usage/help
    operation". *)
Definition default_args : list string := [].

(** A call of the native routine: it acts on the world and is logged. *)
Definition call_samtools_dispatch (method : string) (args : list string)
  : M World R Outcome :=
  fun s =>
    let (o, w) := _samtools_dispatch method args (world s) in
    (Return o, mkStore (self s) w (log s ++ [(method, args)])).

(** [SamtoolsDispatcher.__init__] *)
Definition __init__ (dispatch : string) (parsers : option (list (binding R)))
  : SamtoolsDispatcher R :=
  mkSamtoolsDispatcher dispatch parsers [].

(** The messages on stderr that are not errors. *)
Definition ignored (x : string) : bool :=
  Py.startswith x "[sam_header_read2]" ||
  Py.startswith x "[bam_index_load]" ||
  Py.startswith x "[bam_sort_core]" ||
  Py.startswith x "[samopen] SAM header is present".

(** The inner loop [for option in options: if option not in args: break],
    [true] when it ends without [break], that is when its [else] runs. *)
Fixpoint options_loop (options args : list string) : bool :=
  match options with
  | [] => true
  | option :: options' =>
      if negb (Py.contains args option) then false
      else options_loop options' args
  end.

(** The outer loop [for options, parser in self.parsers]: the value
    returned from inside the loop, [None] when the loop runs out. *)
Fixpoint parsers_loop (ps : list (binding R)) (args : list string)
  (stdout : string) : option R :=
  match ps with
  | [] => None
  | (options, parser) :: ps' =>
      if options_loop options args then Some (parser stdout)
      else parsers_loop ps' args stdout
  end.

(** [SamtoolsDispatcher.__call__] *)
Definition __call__ (args : list string) (kwargs : gmap string Py.value)
  : M World R (result R) :=
  self <- get_self ;;
  o <- call_samtools_dispatch (dispatch self) args ;;
  let retval := retval o in
  let stderr := stderr_lines o in
  let stdout := stdout o in
  if Py.int_truthy retval then
    raise (mkSamtoolsError
             ("csamtools returned with error " +:+ Py.format_i retval +:+ ": "
              +:+ Py.join Py.nl stderr))
  else
    set_stderr stderr ;;;
    let stderr := List.filter (fun x => negb (ignored x)) stderr in
    if Py.list_truthy stderr then
      raise (mkSamtoolsError (Py.join Py.nl stderr))
    else
      if negb (Py.truthy (Py.get kwargs "raw")) && Py.str_truthy stdout
         && parsers_truthy (parsers self)
      then
        match parsers_loop (default [] (parsers self)) args stdout with
        | Some r => ret (Parsed r)
        | None => ret (Stdout stdout)
        end
      else ret (Stdout stdout).

(** [SamtoolsDispatcher.getMessages] *)
Definition getMessages : M World R (list string) :=
  self <- get_self ;;
  ret (stderr self).

(** [SamtoolsDispatcher.usage] *)
Definition usage : M World R string :=
  self <- get_self ;;
  o <- call_samtools_dispatch (dispatch self) default_args ;;
  ret (Py.join "" (stderr_lines o)).

End Dispatcher.

(** ** The command table and the functions made from it *)

(** [SAMTOOLS_DISPATCH]: the name exported in python, the samtools command
    and its parsers. *)
Definition SAMTOOLS_DISPATCH {R : Type}
  : list (string * (string * option (list (binding R)))) :=
  [ ("view", ("view", None));
    ("sort", ("sort", None));
    ("mpileup", ("mpileup", None));
    ("depth", ("depth", None));
    ("faidx", ("faidx", None));
    ("tview", ("tview", None));
    ("index", ("index", None));
    ("idxstats", ("idxstats", None));
    ("fixmate", ("fixmate", None));
    ("flagstat", ("flagstat", None));
    ("calmd", ("calmd", None));
    ("merge", ("merge", None));
    ("rmdup", ("rmdup", None));
    ("reheader", ("reheader", None));
    ("cat", ("cat", None));
    ("targetcut", ("targetcut", None));
    ("phase", ("phase", None));
    ("samimport", ("import", None));
    ("bam2fq", ("bam2fq", None)) ].

(** The loop [globals()[key] = SamtoolsDispatcher(cmd, parser)]. *)
Definition instantiate {R : Type}
  (table : list (string * (string * option (list (binding R)))))
  : gmap string (SamtoolsDispatcher R) :=
  fold_left
    (fun globals entry =>
       let '(key, (cmd, parser)) := entry in
       <[key := __init__ cmd parser]> globals)
    table ∅.

(** ** Sequences of method calls on one dispatcher *)

Inductive method : Type :=
| Call (args : list string) (kwargs : gmap string Py.value)
| Usage.

Section Runs.
Context {World R : Type}.
Variable _samtools_dispatch : string -> list string -> World -> Outcome * World.

(** The store after one method call, whether it returned or raised. *)
Definition after (m : method) (s : Store World R) : Store World R :=
  match m with
  | Call args kwargs => snd (__call__ _samtools_dispatch args kwargs s)
  | Usage => snd (usage _samtools_dispatch s)
  end.

Definition after_all (ms : list method) (s : Store World R) : Store World R :=
  fold_left (fun s m => after m s) ms s.

(** The outcomes the native routine gave to the invocations ([Call]) of
    a sequence of method calls, oldest first. *)
Fixpoint invocation_outcomes (ms : list method) (s : Store World R)
  : list Outcome :=
  match ms with
  | [] => []
  | m :: ms' =>
      match m with
      | Call args _ =>
          [fst (_samtools_dispatch (dispatch (self s)) args (world s))]
      | Usage => []
      end ++ invocation_outcomes ms' (after m s)
  end.
End Runs.

(** The stderr lines of the last outcome with exit code 0, [d] when there
    is none. *)
Definition last_zero_exit (d : list string) (os : list Outcome) : list string :=
  fold_left (fun acc o => if (retval o =? 0)%Z then stderr_lines o else acc) os d.

(** A native routine for examples: the world is the script of the
    outcomes still to come, and a call takes the first of them (an empty
    script gives exit code 0 and no output). *)
Definition scripted (method : string) (args : list string) (w : list Outcome)
  : Outcome * list Outcome :=
  match w with
  | [] => (mkOutcome 0 [] "", [])
  | o :: w' => (o, w')
  end.

(** ** The benign prefixes *)

Definition benign_prefixes : list string :=
  [ "[sam_header_read2]"; "[bam_index_load]"; "[bam_sort_core]";
    "[samopen] SAM header is present" ].

(** A line is benign when it begins with one of the benign prefixes. *)
Definition benign (x : string) : Prop :=
  exists p rest, In p benign_prefixes /\ x = p +:+ rest.

(** A parser binding matches when all its options are among the
    arguments. *)
Definition matches {R : Type} (args : list string) (b : binding R) : Prop :=
  forall option, In option (fst b) -> In option args.

(** The raw flag as the dispatcher reads it. *)
Definition raw_set (kwargs : gmap string Py.value) : Prop :=
  Py.truthy (Py.get kwargs "raw") = true.

(** ** The stores an invocation passes through *)

(** The store once the native routine has been called with [args] and has
    left the world [w]. *)
Definition dispatched {World R : Type} (s : Store World R) (args : list string)
  (w : World) : Store World R :=
  mkStore (self s) w (log s ++ [(dispatch (self s), args)]).

(** The same store once [self.stderr] has been assigned the lines [l]. *)
Definition recorded {World R : Type} (s : Store World R) (args : list string)
  (w : World) (l : list string) : Store World R :=
  mkStore (mkSamtoolsDispatcher (dispatch (self s)) (parsers (self s)) l)
          w (log s ++ [(dispatch (self s), args)]).

(** The lines of stderr that are left after the ignored ones are taken
    out. *)
Definition suspicious (l : list string) : list string :=
  List.filter (fun x => negb (ignored x)) l.

(** The message of the exception raised for a non-zero return value. *)
Definition error_message (o : Outcome) : string :=
  "csamtools returned with error " +:+ Py.format_i (retval o) +:+ ": "
  +:+ Py.join Py.nl (stderr_lines o).

(** ** Dispatchers and outcomes for examples *)

(** A new dispatcher in a world that is the script of the outcomes to
    come. *)
Definition fresh {R : Type} (cmd : string) (parsers : option (list (binding R)))
  (script : list Outcome) : Store (list Outcome) R :=
  mkStore (__init__ cmd parsers) script [].

Definition truncated : Outcome :=
  mkOutcome 1 ["error: truncated file"] "".

Definition flagstat_ok : Outcome :=
  mkOutcome 0 ["[bam_index_load] foo"] ("120 total" +:+ Py.nl).

Definition mixed : Outcome :=
  mkOutcome 0
    ["[bam_index_load] foo"; "fail to open file"; "[bam_sort_core] merging";
     "truncated file"]
    "chr1".

Definition mixed_reordered : Outcome :=
  mkOutcome 0
    ["fail to open file"; "[bam_sort_core] merging"; "truncated file";
     "[bam_index_load] foo"]
    "chr1".

(** The bindings of the obsolete pileup entry of the table, with the
    length of the output standing for the parser, followed by a binding
    that requires nothing. *)
Definition pileup_parsers : option (list (binding nat)) :=
  Some [ (["-c"], String.length); ([], fun _ => 0%nat) ].

(** ** The exported names *)

(** [__all__], given the [__all__] of the extension modules csamtools,
    ctabix and cvcf. *)
Definition __all__ (csamtools_all ctabix_all cvcf_all : list string)
  : list string :=
  csamtools_all ++ ctabix_all ++ cvcf_all
  ++ ["SamtoolsError"; "SamtoolsDispatcher"]
  ++ map fst (SAMTOOLS_DISPATCH (R := unit))
  ++ ["Pileup"].

(** The call of the native routine that a method makes on a dispatcher
    for the command [cmd]. *)
Definition request (cmd : string) (m : method) : string * list string :=
  match m with
  | Call args _ => (cmd, args)
  | Usage => (cmd, [])
  end.

(** A string without a colon. *)
Fixpoint colon_free (s : string) : bool :=
  match s with
  | EmptyString => true
  | String c s' => negb (Ascii.eqb c ":") && colon_free s'
  end.

(** ** Parsers that raise

    [__call__] above is written over any type [R] of what the call
    [parser(stdout)] comes to.  A parser is python code and may raise
    instead of returning: with [evaluation V] for [R] the call comes to a
    value or to an exception, and [return parser(stdout)] returns the
    value or lets the exception through to the caller, there being no
    [try] in the method. *)

(** The exceptions that leave an invocation: the dispatcher's own
    [SamtoolsError], or an exception of any class raised inside a
    parser. *)
Inductive exception : Type :=
| Samtools (e : SamtoolsError)
| Other (class message : string).

(** How evaluating python code ends: with a value or with an exception. *)
Inductive evaluation (A : Type) : Type :=
| Returns (a : A)
| Raises (e : exception).

Arguments Returns {A} a.
Arguments Raises {A} e.

Definition raising {A : Type} (e : evaluation A) : bool :=
  match e with
  | Returns _ => false
  | Raises _ => true
  end.

(** [return parser(stdout)], once [parser(stdout)] has been evaluated. *)
Definition delivered {V : Type} (e : evaluation V) : evaluation (result V) :=
  match e with
  | Returns v => Returns (Parsed v)
  | Raises x => Raises x
  end.

(** How a run of [__call__] ends for the caller. *)
Definition propagate {V : Type} (c : completion (result (evaluation V)))
  : evaluation (result V) :=
  match c with
  | Raise e => Raises (Samtools e)
  | Return (Stdout out) => Returns (Stdout out)
  | Return (Parsed e) => delivered e
  end.

(** [SamtoolsDispatcher.__call__] for a dispatcher whose parsers may
    raise. *)
Definition invoke {World V : Type}
  (_samtools_dispatch : string -> list string -> World -> Outcome * World)
  (args : list string) (kwargs : gmap string Py.value)
  (s : Store World (evaluation V))
  : evaluation (result V) * Store World (evaluation V) :=
  let (c, s') := __call__ _samtools_dispatch args kwargs s in
  (propagate c, s').

(** Bindings for examples: the parser for "-c" rejects the output, the
    parser that requires nothing counts its characters. *)
Definition strict_parsers : option (list (binding (evaluation nat))) :=
  Some [ (["-c"], fun _ => Raises (Other "ValueError" "malformed pileup line"));
         ([], fun out => Returns (String.length out)) ].

(** * Properties *)

Lemma startswith_spec (x p : string) :
  Py.startswith x p = true <-> exists rest, x = p +:+ rest.
Proof.
  revert x. induction p as [|c p IH]; intros x; simpl.
  - split; [intros _; exists x; reflexivity | reflexivity].
  - destruct x as [|d x]; simpl.
    + split; [discriminate | intros [rest H]; discriminate].
    + rewrite andb_true_iff, Ascii.eqb_eq, IH. split.
      * intros [-> [rest ->]]. exists rest. reflexivity.
      * intros [rest H]. injection H as -> ->. split; [reflexivity | eauto].
Qed.

Lemma ignored_spec (x : string) : ignored x = true <-> benign x.
Proof.
  unfold ignored, benign, benign_prefixes.
  rewrite !orb_true_iff, !startswith_spec. simpl. split.
  - intros [[[[r H]|[r H]]|[r H]]|[r H]]; eexists _, r; (split; [|exact H]); tauto.
  - intros (p & r & Hp & H).
    destruct Hp as [<-|[<-|[<-|[<-|[]]]]]; eauto.
Qed.

Lemma ignored_false_spec (x : string) : ignored x = false <-> ~ benign x.
Proof.
  rewrite <- ignored_spec. destruct (ignored x); split; congruence.
Qed.

Lemma options_loop_spec (options args : list string) :
  options_loop options args = true <-> forall o, In o options -> In o args.
Proof.
  induction options as [|o os IH]; simpl.
  - split; [intros _ ? [] | reflexivity].
  - destruct (Py.contains args o) eqn:E; simpl.
    + apply existsb_exists in E as (y & Hy & Heq). apply String.eqb_eq in Heq.
      subst y. rewrite IH. split.
      * intros H o' [<-|Ho']; auto.
      * intros H o' Ho'. apply H. auto.
    + split; [discriminate|]. intros H. exfalso.
      assert (In o args) as Hin by (apply H; auto).
      assert (Py.contains args o = true) as E'.
      { apply existsb_exists. exists o. split; [assumption | apply String.eqb_refl]. }
      congruence.
Qed.

Lemma options_loop_matches {R : Type} (args : list string) (b : binding R) :
  options_loop (fst b) args = true <-> matches args b.
Proof. apply options_loop_spec. Qed.

Lemma filter_nil_iff {A : Type} (f : A -> bool) (l : list A) :
  List.filter f l = [] <-> forall x, In x l -> f x = false.
Proof.
  induction l as [|a l IH]; simpl.
  - split; [intros _ ? [] | reflexivity].
  - destruct (f a) eqn:E.
    + split; [discriminate|]. intros H. specialize (H a (or_introl eq_refl)). congruence.
    + rewrite IH. split.
      * intros H x [<-|Hx]; auto.
      * intros H x Hx. apply H. auto.
Qed.

Lemma suspicious_In (l : list string) (x : string) :
  In x (suspicious l) <-> In x l /\ ~ benign x.
Proof.
  unfold suspicious. rewrite filter_In, negb_true_iff, ignored_false_spec.
  reflexivity.
Qed.

Lemma suspicious_nil_iff (l : list string) :
  suspicious l = [] <-> Forall benign l.
Proof.
  unfold suspicious. rewrite filter_nil_iff, List.Forall_forall.
  split; intros H x Hx; specialize (H x Hx).
  - apply ignored_spec. apply negb_false_iff. exact H.
  - apply negb_false_iff. apply ignored_spec. exact H.
Qed.

Lemma occurs_in_intro (pre sub post : string) :
  occurs_in sub (pre +:+ sub +:+ post).
Proof. exists pre, post. reflexivity. Qed.

Lemma append_empty_r (s : string) : s +:+ "" = s.
Proof.
  induction s as [|c s IH]; [reflexivity|].
  change (String c (s +:+ "") = String c s). now rewrite IH.
Qed.

Lemma append_assoc (a b c : string) : (a +:+ b) +:+ c = a +:+ b +:+ c.
Proof.
  induction a as [|x a IH]; [reflexivity|].
  change (String x ((a +:+ b) +:+ c) = String x (a +:+ b +:+ c)). now rewrite IH.
Qed.

Section Invocation.
Context {World R : Type}.
Variable _samtools_dispatch : string -> list string -> World -> Outcome * World.

(** The three ways through [__call__]. *)

Lemma invoke_nonzero (s : Store World R) args kwargs o w :
  _samtools_dispatch (dispatch (self s)) args (world s) = (o, w) ->
  retval o <> 0%Z ->
  __call__ _samtools_dispatch args kwargs s
  = (Raise (mkSamtoolsError (error_message o)), dispatched s args w).
Proof.
  intros He Hr. unfold __call__, bind, get_self, call_samtools_dispatch, raise.
  simpl. rewrite He. simpl. unfold Py.int_truthy.
  destruct (Z.eqb_spec (retval o) 0) as [E|E]; [contradiction|reflexivity].
Qed.

Lemma invoke_suspicious (s : Store World R) args kwargs o w :
  _samtools_dispatch (dispatch (self s)) args (world s) = (o, w) ->
  retval o = 0%Z ->
  suspicious (stderr_lines o) <> [] ->
  __call__ _samtools_dispatch args kwargs s
  = (Raise (mkSamtoolsError (Py.join Py.nl (suspicious (stderr_lines o)))),
     recorded s args w (stderr_lines o)).
Proof.
  intros He Hr Hs. unfold __call__, bind, get_self, call_samtools_dispatch, raise.
  simpl. rewrite He. simpl. unfold Py.int_truthy. rewrite Hr. simpl.
  fold (suspicious (stderr_lines o)).
  destruct (suspicious (stderr_lines o)); [contradiction|reflexivity].
Qed.

Lemma invoke_clean (s : Store World R) args kwargs o w :
  _samtools_dispatch (dispatch (self s)) args (world s) = (o, w) ->
  retval o = 0%Z ->
  suspicious (stderr_lines o) = [] ->
  __call__ _samtools_dispatch args kwargs s
  = (Return
       (if negb (Py.truthy (Py.get kwargs "raw")) && Py.str_truthy (stdout o)
           && parsers_truthy (parsers (self s))
        then match parsers_loop (default [] (parsers (self s))) args (stdout o) with
             | Some r => Parsed r
             | None => Stdout (stdout o)
             end
        else Stdout (stdout o)),
     recorded s args w (stderr_lines o)).
Proof.
  intros He Hr Hs. unfold __call__, bind, get_self, call_samtools_dispatch, ret.
  simpl. rewrite He. simpl. unfold Py.int_truthy. rewrite Hr. simpl.
  fold (suspicious (stderr_lines o)). rewrite Hs. simpl.
  destruct (negb (Py.truthy (Py.get kwargs "raw")) && Py.str_truthy (stdout o)
            && parsers_truthy (parsers (self s))); [|reflexivity].
  destruct (parsers_loop _ _ _); reflexivity.
Qed.

(** The outer loop returns the parser's value of the first binding that
    matches. *)
Lemma parsers_loop_first (pre post : list (binding R)) options parser args out :
  (forall b, In b pre -> ~ matches args b) ->
  matches args (options, parser) ->
  parsers_loop (pre ++ (options, parser) :: post) args out = Some (parser out).
Proof.
  intros Hpre Hm. induction pre as [|[o p] pre IH]; simpl.
  - apply (options_loop_matches args (options, parser)) in Hm. simpl in Hm.
    rewrite Hm. reflexivity.
  - destruct (options_loop o args) eqn:E.
    + exfalso. apply (Hpre (o, p)); [left; reflexivity|].
      apply options_loop_matches. exact E.
    + apply IH. intros b Hb. apply Hpre. right. exact Hb.
Qed.

Lemma parsers_loop_none (ps : list (binding R)) args out :
  (forall b, In b ps -> ~ matches args b) ->
  parsers_loop ps args out = None.
Proof.
  intros H. induction ps as [|[o p] ps IH]; simpl; [reflexivity|].
  destruct (options_loop o args) eqn:E.
  - exfalso. apply (H (o, p)); [left; reflexivity|].
    apply options_loop_matches. exact E.
  - apply IH. intros b Hb. apply H. right. exact Hb.
Qed.

Lemma parsers_loop_some (ps : list (binding R)) args out r :
  parsers_loop ps args out = Some r ->
  exists options parser,
    In (options, parser) ps /\ matches args (options, parser) /\ r = parser out.
Proof.
  induction ps as [|[o p] ps IH]; simpl; [discriminate|].
  destruct (options_loop o args) eqn:E.
  - intros [= <-]. exists o, p. split; [left; reflexivity|]. split; [|reflexivity].
    apply options_loop_matches. exact E.
  - intros H. destruct (IH H) as (o' & p' & Hin & Hm & ->).
    exists o', p'. auto.
Qed.

End Invocation.

Lemma suspicious_sublist (l : list string) : sublist (suspicious l) l.
Proof.
  induction l as [|x l IH]; simpl; [constructor|].
  unfold suspicious in *. simpl.
  destruct (negb (ignored x)); [apply sublist_skip | apply sublist_cons]; exact IH.
Qed.

(** ['%i' % z] is the decimal numeral of [z]: reading it gives [z] back. *)
Lemma format_i_read (z : Z) :
  option_map Z.of_int (NilZero.int_of_string (Py.format_i z)) = Some z.
Proof.
  unfold Py.format_i. rewrite NilZero.isi.
  - simpl. now rewrite DecimalZ.of_to.
  - destruct z; simpl; try discriminate.
    intros [= H]. now apply (DecimalPos.Unsigned.to_uint_nonnil p).
  - destruct z; simpl; try discriminate.
    intros [= H]. now apply (DecimalPos.Unsigned.to_uint_nonnil p).
Qed.

Lemma error_message_code (o : Outcome) :
  occurs_in (Py.format_i (retval o)) (error_message o).
Proof. unfold error_message. apply occurs_in_intro. Qed.

Lemma error_message_stderr (o : Outcome) :
  occurs_in (Py.join Py.nl (stderr_lines o)) (error_message o).
Proof.
  unfold error_message.
  exists ("csamtools returned with error " +:+ Py.format_i (retval o) +:+ ": "), "".
  rewrite append_empty_r, !append_assoc. reflexivity.
Qed.

(** Rewriting with a fact about the parser loop, whatever the way the
    type of the bindings is written. *)
Ltac rewrite_loop H :=
  let X := fresh "X" in
  pose proof H as X; unfold binding in X; simpl app in X; rewrite X; clear X.

(** * The claims *)

Section Claims.
Context {World R : Type}.
Variable _samtools_dispatch : string -> list string -> World -> Outcome * World.

(** C1: when the native routine returns a non-zero exit code, the
    invocation raises [SamtoolsError] whatever the stderr lines are; the
    message is the text "csamtools returned with error ", the exit code in
    decimal, ": " and all the stderr lines joined with line feeds, so the
    exit code and the full joined stderr occur in it; no line is filtered
    out of it, the ignored ones included. *)
Theorem nonzero_exit_raises (s : Store World R) (args : list string)
  (kwargs : gmap string Py.value) (o : Outcome) (w : World) :
  _samtools_dispatch (dispatch (self s)) args (world s) = (o, w) ->
  retval o <> 0%Z ->
  exists msg,
    fst (__call__ _samtools_dispatch args kwargs s) = Raise (mkSamtoolsError msg)
    /\ msg = "csamtools returned with error " +:+ Py.format_i (retval o)
             +:+ ": " +:+ Py.join Py.nl (stderr_lines o)
    /\ occurs_in (Py.format_i (retval o)) msg
    /\ occurs_in (Py.join Py.nl (stderr_lines o)) msg.
Proof.
  intros He Hr. exists (error_message o).
  rewrite (invoke_nonzero _ s args kwargs o w He Hr). simpl.
  split; [reflexivity|]. split; [reflexivity|].
  split; [apply error_message_code | apply error_message_stderr].
Qed.

(** C2: when the exit code is 0 and at least one stderr line begins with
    none of the benign prefixes, the invocation raises [SamtoolsError] and
    the message is the join, with line feeds, of exactly the lines that are
    not benign, in their order, the benign ones left out. *)
Theorem suspicious_stderr_raises (s : Store World R) (args : list string)
  (kwargs : gmap string Py.value) (o : Outcome) (w : World) :
  _samtools_dispatch (dispatch (self s)) args (world s) = (o, w) ->
  retval o = 0%Z ->
  (exists x, In x (stderr_lines o) /\ ~ benign x) ->
  exists lines,
    fst (__call__ _samtools_dispatch args kwargs s)
    = Raise (mkSamtoolsError (Py.join Py.nl lines))
    /\ lines = List.filter (fun x => negb (ignored x)) (stderr_lines o)
    /\ sublist lines (stderr_lines o)
    /\ (forall x, In x lines <-> In x (stderr_lines o) /\ ~ benign x).
Proof.
  intros He Hr (x & Hx & Hb). exists (suspicious (stderr_lines o)).
  assert (suspicious (stderr_lines o) <> []) as Hne.
  { intros E. assert (In x (suspicious (stderr_lines o))) as Hin
      by (apply suspicious_In; auto).
    rewrite E in Hin. destruct Hin. }
  rewrite (invoke_suspicious _ s args kwargs o w He Hr Hne). simpl.
  split; [reflexivity|]. split; [reflexivity|].
  split; [apply suspicious_sublist | apply suspicious_In].
Qed.

(** C4: on a successful invocation with registered bindings, a non-empty
    standard output and the raw flag unset, the bindings are tried in the
    order of registration and the parser of the first one all of whose
    options are among the positional arguments is applied to the standard
    output; when none matches the standard output is returned as it is.
    With the bindings B1 requiring "-c" and then B2 requiring nothing,
    arguments with "-c" select B1 and arguments without it select B2. *)
Theorem first_matching_parser (s : Store World R) (args : list string)
  (kwargs : gmap string Py.value) (o : Outcome) (w : World)
  (ps : list (binding R)) :
  _samtools_dispatch (dispatch (self s)) args (world s) = (o, w) ->
  retval o = 0%Z ->
  Forall benign (stderr_lines o) ->
  parsers (self s) = Some ps ->
  ps <> [] ->
  stdout o <> "" ->
  ~ raw_set kwargs ->
  (forall pre options parser post,
      ps = pre ++ (options, parser) :: post ->
      (forall b, In b pre -> ~ matches args b) ->
      matches args (options, parser) ->
      fst (__call__ _samtools_dispatch args kwargs s)
      = Return (Parsed (parser (stdout o))))
  /\ ((forall b, In b ps -> ~ matches args b) ->
      fst (__call__ _samtools_dispatch args kwargs s) = Return (Stdout (stdout o)))
  /\ (forall B1 B2 : string -> R,
        ps = [(["-c"], B1); ([], B2)] ->
        (In "-c" args ->
         fst (__call__ _samtools_dispatch args kwargs s)
         = Return (Parsed (B1 (stdout o))))
        /\ (~ In "-c" args ->
            fst (__call__ _samtools_dispatch args kwargs s)
            = Return (Parsed (B2 (stdout o))))).
Proof.
  intros He Hr Hb Hp Hne Hout Hraw. apply suspicious_nil_iff in Hb.
  rewrite (invoke_clean _ s args kwargs o w He Hr Hb), Hp. simpl.
  assert (negb (Py.truthy (Py.get kwargs "raw")) && Py.str_truthy (stdout o)
          && Py.list_truthy ps = true) as ->.
  { unfold raw_set in Hraw. apply not_true_is_false in Hraw. rewrite Hraw.
    destruct (stdout o); [contradiction|]. destruct ps; [contradiction|].
    reflexivity. }
  split; [|split].
  - intros pre options parser post -> Hpre Hm.
    rewrite_loop (parsers_loop_first pre post options parser args (stdout o) Hpre Hm).
    reflexivity.
  - intros Hnone. rewrite_loop (parsers_loop_none ps args (stdout o) Hnone).
    reflexivity.
  - intros B1 B2 ->. split; intros Hc.
    + assert (matches args (["-c"], B1)) as Hm by (intros x [<-|[]]; exact Hc).
      rewrite_loop (parsers_loop_first [] [([], B2)] ["-c"] B1 args (stdout o)
                      (fun b (H : In b []) => match H with end) Hm).
      reflexivity.
    + assert (forall b, In b [(["-c"], B1)] -> ~ matches args b) as Hpre.
      { intros b [<-|[]] Hm. apply Hc. apply Hm. left. reflexivity. }
      assert (matches args ([], B2)) as Hm by (intros x []).
      rewrite_loop (parsers_loop_first [(["-c"], B1)] [] [] B2 args (stdout o)
                      Hpre Hm).
      reflexivity.
Qed.

(** C6: on a successful invocation, when the raw flag is set, or the
    standard output is empty, or the dispatcher has no parser bindings
    ([None] or an empty list), the standard output is returned as it is. *)
Theorem unparsed_stdout (s : Store World R) (args : list string)
  (kwargs : gmap string Py.value) (o : Outcome) (w : World) :
  _samtools_dispatch (dispatch (self s)) args (world s) = (o, w) ->
  retval o = 0%Z ->
  Forall benign (stderr_lines o) ->
  raw_set kwargs \/ stdout o = ""
  \/ parsers (self s) = None \/ parsers (self s) = Some [] ->
  fst (__call__ _samtools_dispatch args kwargs s) = Return (Stdout (stdout o)).
Proof.
  intros He Hr Hb Hc. apply suspicious_nil_iff in Hb.
  rewrite (invoke_clean _ s args kwargs o w He Hr Hb). simpl.
  destruct Hc as [Hraw|[Hout|[Hp|Hp]]].
  - unfold raw_set in Hraw. rewrite Hraw. reflexivity.
  - rewrite Hout, andb_false_r. reflexivity.
  - rewrite Hp, andb_false_r. reflexivity.
  - rewrite Hp, andb_false_r. reflexivity.
Qed.

(** C7: for two outcomes with exit code 0 and the same standard output
    whose stderr lines differ only in that the benign lines are permuted
    and placed anywhere among the other lines, which keep their order, the
    invocation raises for the one exactly when it raises for the other;
    the invocation then ends the same way on both. *)
Theorem reordering_benign_lines (s1 s2 : Store World R) (args : list string)
  (kwargs : gmap string Py.value) (o1 o2 : Outcome) (w1 w2 : World) :
  self s1 = self s2 ->
  _samtools_dispatch (dispatch (self s1)) args (world s1) = (o1, w1) ->
  _samtools_dispatch (dispatch (self s2)) args (world s2) = (o2, w2) ->
  retval o1 = 0%Z ->
  retval o2 = 0%Z ->
  stdout o1 = stdout o2 ->
  Permutation (List.filter ignored (stderr_lines o1))
              (List.filter ignored (stderr_lines o2)) ->
  List.filter (fun x => negb (ignored x)) (stderr_lines o1)
  = List.filter (fun x => negb (ignored x)) (stderr_lines o2) ->
  raises (fst (__call__ _samtools_dispatch args kwargs s1))
  = raises (fst (__call__ _samtools_dispatch args kwargs s2))
  /\ fst (__call__ _samtools_dispatch args kwargs s1)
     = fst (__call__ _samtools_dispatch args kwargs s2).
Proof.
  intros Hs He1 He2 Hr1 Hr2 Hout _ Hsus.
  fold (suspicious (stderr_lines o1)) in Hsus.
  fold (suspicious (stderr_lines o2)) in Hsus.
  assert (fst (__call__ _samtools_dispatch args kwargs s1)
          = fst (__call__ _samtools_dispatch args kwargs s2)) as E.
  { destruct (suspicious (stderr_lines o1)) as [|x l] eqn:E1.
    - symmetry in Hsus.
      rewrite (invoke_clean _ s1 args kwargs o1 w1 He1 Hr1 E1).
      rewrite (invoke_clean _ s2 args kwargs o2 w2 He2 Hr2 Hsus).
      simpl. rewrite Hs, Hout. reflexivity.
    - assert (suspicious (stderr_lines o1) <> []) as N1 by (rewrite E1; discriminate).
      assert (suspicious (stderr_lines o2) <> []) as N2 by (rewrite <- Hsus; discriminate).
      rewrite (invoke_suspicious _ s1 args kwargs o1 w1 He1 Hr1 N1).
      rewrite (invoke_suspicious _ s2 args kwargs o2 w2 He2 Hr2 N2).
      simpl. rewrite E1, Hsus. reflexivity. }
  split; [rewrite E; reflexivity | exact E].
Qed.

Lemma usage_run (s : Store World R) :
  usage _samtools_dispatch s
  = (Return (Py.join ""
               (stderr_lines
                  (fst (_samtools_dispatch (dispatch (self s)) [] (world s))))),
     mkStore (self s)
             (snd (_samtools_dispatch (dispatch (self s)) [] (world s)))
             (log s ++ [(dispatch (self s), [])])).
Proof.
  unfold usage, bind, get_self, call_samtools_dispatch, ret, default_args. simpl.
  destruct (_samtools_dispatch (dispatch (self s)) [] (world s)) as [o w].
  reflexivity.
Qed.

(** C9: [usage] calls the native routine once, with the command of the
    dispatcher and no arguments, and returns the stderr lines of the
    outcome joined with nothing between them; whatever the outcome
    (exit code, stderr lines, standard output) it does not raise, and the
    returned text does not depend on the parsers of the dispatcher. *)
Theorem usage_returns_stderr (s : Store World R) :
  exists o w,
    _samtools_dispatch (dispatch (self s)) [] (world s) = (o, w)
    /\ fst (usage _samtools_dispatch s) = Return (Py.join "" (stderr_lines o))
    /\ log (snd (usage _samtools_dispatch s)) = log s ++ [(dispatch (self s), [])]
    /\ world (snd (usage _samtools_dispatch s)) = w
    /\ forall ps : option (list (binding R)),
         fst (usage _samtools_dispatch
                (mkStore (mkSamtoolsDispatcher (dispatch (self s)) ps (stderr (self s)))
                         (world s) (log s)))
         = Return (Py.join "" (stderr_lines o)).
Proof.
  destruct (_samtools_dispatch (dispatch (self s)) [] (world s)) as [o w] eqn:He.
  exists o, w. split; [reflexivity|].
  rewrite usage_run, He. simpl. repeat split.
  intros ps. rewrite usage_run. simpl. rewrite He. reflexivity.
Qed.

(** C10: [usage] leaves the stderr lines kept by the dispatcher as they
    are: [getMessages] returns the same before and after it. *)
Theorem usage_keeps_messages (s : Store World R) :
  fst (getMessages (snd (usage _samtools_dispatch s))) = fst (getMessages s)
  /\ self (snd (usage _samtools_dispatch s)) = self s.
Proof.
  rewrite usage_run. split; reflexivity.
Qed.

Lemma invoke_store (s : Store World R) args kwargs o w :
  _samtools_dispatch (dispatch (self s)) args (world s) = (o, w) ->
  snd (__call__ _samtools_dispatch args kwargs s)
  = if (retval o =? 0)%Z then recorded s args w (stderr_lines o)
    else dispatched s args w.
Proof.
  intros He. destruct (Z.eqb_spec (retval o) 0) as [Hr|Hr].
  - destruct (suspicious (stderr_lines o)) as [|x l] eqn:E.
    + rewrite (invoke_clean _ s args kwargs o w He Hr E). reflexivity.
    + assert (suspicious (stderr_lines o) <> []) as N by (rewrite E; discriminate).
      rewrite (invoke_suspicious _ s args kwargs o w He Hr N). reflexivity.
  - rewrite (invoke_nonzero _ s args kwargs o w He Hr). reflexivity.
Qed.

(** C5, amended: an invocation for which the exit code is 0 overwrites the
    kept stderr lines with the stderr lines of that invocation, all of
    them, whether it then returns or raises for a suspicious line; an
    invocation for which the exit code is not 0 raises before the
    assignment and leaves the kept lines as they were. *)
Theorem zero_exit_overwrites_messages (s : Store World R) (args : list string)
  (kwargs : gmap string Py.value) (o : Outcome) (w : World) :
  _samtools_dispatch (dispatch (self s)) args (world s) = (o, w) ->
  (retval o = 0%Z ->
   stderr (self (snd (__call__ _samtools_dispatch args kwargs s)))
   = stderr_lines o)
  /\ (retval o <> 0%Z ->
      stderr (self (snd (__call__ _samtools_dispatch args kwargs s)))
      = stderr (self s)).
Proof.
  intros He. rewrite (invoke_store s args kwargs o w He). split; intros Hr.
  - rewrite Hr. reflexivity.
  - apply Z.eqb_neq in Hr. rewrite Hr. reflexivity.
Qed.

Lemma after_stderr (m : method) (s : Store World R) :
  stderr (self (after _samtools_dispatch m s))
  = match m with
    | Call args _ =>
        let o := fst (_samtools_dispatch (dispatch (self s)) args (world s)) in
        if (retval o =? 0)%Z then stderr_lines o else stderr (self s)
    | Usage => stderr (self s)
    end.
Proof.
  destruct m as [args kwargs|]; simpl.
  - destruct (_samtools_dispatch (dispatch (self s)) args (world s)) as [o w] eqn:He.
    rewrite (invoke_store s args kwargs o w He). simpl.
    destruct (retval o =? 0)%Z; reflexivity.
  - rewrite usage_run. reflexivity.
Qed.

(** C8, amended: after any sequence of invocations and usage calls,
    [getMessages] returns, without changing the store, the stderr lines of
    the most recent invocation whose exit code was 0, all of them, the
    lines with a benign prefix included; invocations whose exit code was
    not 0 do not count, and when there was no invocation with exit code 0
    it returns what the dispatcher held before. *)
Theorem getMessages_last_zero_exit (ms : list method) (s : Store World R) :
  getMessages (after_all _samtools_dispatch ms s)
  = (Return (last_zero_exit (stderr (self s))
               (invocation_outcomes _samtools_dispatch ms s)),
     after_all _samtools_dispatch ms s).
Proof.
  unfold getMessages, bind, get_self, ret. simpl. f_equal. f_equal.
  revert s. induction ms as [|m ms IH]; intros s; [reflexivity|].
  unfold after_all in *. simpl. rewrite IH, after_stderr.
  destruct m as [args kwargs|]; reflexivity.
Qed.

End Claims.

Lemma nonzero_exit_raises_witness :
  scripted "view" ["in.bam"] [truncated] = (truncated, [])
  /\ retval truncated <> 0%Z
  /\ exists msg,
       fst (__call__ scripted ["in.bam"] ∅ (fresh (R := nat) "view" None [truncated]))
       = Raise (mkSamtoolsError msg)
       /\ msg = "csamtools returned with error " +:+ Py.format_i (retval truncated)
                +:+ ": " +:+ Py.join Py.nl (stderr_lines truncated)
       /\ occurs_in (Py.format_i (retval truncated)) msg
       /\ occurs_in (Py.join Py.nl (stderr_lines truncated)) msg.
Proof.
  split; [reflexivity|]. split; [discriminate|].
  apply (nonzero_exit_raises scripted (fresh (R := nat) "view" None [truncated])
           ["in.bam"] ∅ truncated []); [reflexivity | discriminate].
Defined.

Lemma suspicious_stderr_raises_witness :
  scripted "sort" ["in.bam"] [mixed] = (mixed, [])
  /\ retval mixed = 0%Z
  /\ (exists x, In x (stderr_lines mixed) /\ ~ benign x)
  /\ exists lines,
       fst (__call__ scripted ["in.bam"] ∅ (fresh (R := nat) "sort" None [mixed]))
       = Raise (mkSamtoolsError (Py.join Py.nl lines))
       /\ lines = List.filter (fun x => negb (ignored x)) (stderr_lines mixed)
       /\ sublist lines (stderr_lines mixed)
       /\ (forall x, In x lines <-> In x (stderr_lines mixed) /\ ~ benign x).
Proof.
  assert (exists x, In x (stderr_lines mixed) /\ ~ benign x) as H.
  { exists "fail to open file".
    split; [simpl; tauto | apply ignored_false_spec; reflexivity]. }
  split; [reflexivity|]. split; [reflexivity|]. split; [exact H|].
  apply (suspicious_stderr_raises scripted (fresh (R := nat) "sort" None [mixed])
           ["in.bam"] ∅ mixed []); [reflexivity | reflexivity | exact H].
Defined.

Lemma first_matching_parser_witness :
  scripted "pileup" ["-c"; "in.bam"] [flagstat_ok] = (flagstat_ok, [])
  /\ retval flagstat_ok = 0%Z
  /\ Forall benign (stderr_lines flagstat_ok)
  /\ pileup_parsers = Some [(["-c"], String.length); ([], fun _ => 0%nat)]
  /\ [(["-c"], String.length); ([], fun _ : string => 0%nat)] <> []
  /\ stdout flagstat_ok <> ""
  /\ ~ raw_set ∅
  /\ (forall pre options parser post,
         [(["-c"], String.length); ([], fun _ => 0%nat)]
         = pre ++ (options, parser) :: post ->
         (forall b, In b pre -> ~ matches ["-c"; "in.bam"] b) ->
         matches ["-c"; "in.bam"] (options, parser) ->
         fst (__call__ scripted ["-c"; "in.bam"] ∅
                (fresh "pileup" pileup_parsers [flagstat_ok]))
         = Return (Parsed (parser (stdout flagstat_ok))))
  /\ ((forall b, In b [(["-c"], String.length); ([], fun _ => 0%nat)] ->
                 ~ matches ["-c"; "in.bam"] b) ->
      fst (__call__ scripted ["-c"; "in.bam"] ∅
             (fresh "pileup" pileup_parsers [flagstat_ok]))
      = Return (Stdout (stdout flagstat_ok)))
  /\ (forall B1 B2 : string -> nat,
        [(["-c"], String.length); ([], fun _ => 0%nat)]
        = [(["-c"], B1); ([], B2)] ->
        (In "-c" ["-c"; "in.bam"] ->
         fst (__call__ scripted ["-c"; "in.bam"] ∅
                (fresh "pileup" pileup_parsers [flagstat_ok]))
         = Return (Parsed (B1 (stdout flagstat_ok))))
        /\ (~ In "-c" ["-c"; "in.bam"] ->
            fst (__call__ scripted ["-c"; "in.bam"] ∅
                   (fresh "pileup" pileup_parsers [flagstat_ok]))
            = Return (Parsed (B2 (stdout flagstat_ok))))).
Proof.
  assert (Forall benign (stderr_lines flagstat_ok)) as Hb
    by (apply suspicious_nil_iff; reflexivity).
  assert (~ raw_set ∅) as Hraw by (unfold raw_set; vm_compute; discriminate).
  split; [reflexivity|]. split; [reflexivity|]. split; [exact Hb|].
  split; [reflexivity|]. split; [discriminate|]. split; [discriminate|].
  split; [exact Hraw|].
  apply (first_matching_parser scripted (fresh "pileup" pileup_parsers [flagstat_ok])
           ["-c"; "in.bam"] ∅ flagstat_ok []
           [(["-c"], String.length); ([], fun _ => 0%nat)]);
    [reflexivity | reflexivity | exact Hb | reflexivity | discriminate
    | discriminate | exact Hraw].
Defined.

Lemma unparsed_stdout_witness :
  scripted "pileup" ["-c"; "in.bam"] [flagstat_ok] = (flagstat_ok, [])
  /\ retval flagstat_ok = 0%Z
  /\ Forall benign (stderr_lines flagstat_ok)
  /\ (raw_set {["raw" := Py.Bool true]} \/ stdout flagstat_ok = ""
      \/ parsers (self (fresh "pileup" pileup_parsers [flagstat_ok])) = None
      \/ parsers (self (fresh "pileup" pileup_parsers [flagstat_ok])) = Some [])
  /\ fst (__call__ scripted ["-c"; "in.bam"] {["raw" := Py.Bool true]}
            (fresh "pileup" pileup_parsers [flagstat_ok]))
     = Return (Stdout (stdout flagstat_ok)).
Proof.
  assert (Forall benign (stderr_lines flagstat_ok)) as Hb
    by (apply suspicious_nil_iff; reflexivity).
  assert (raw_set {["raw" := Py.Bool true]}) as Hraw
    by (unfold raw_set; vm_compute; reflexivity).
  split; [reflexivity|]. split; [reflexivity|]. split; [exact Hb|].
  split; [left; exact Hraw|].
  apply (unparsed_stdout scripted (fresh "pileup" pileup_parsers [flagstat_ok])
           ["-c"; "in.bam"] {["raw" := Py.Bool true]} flagstat_ok []);
    [reflexivity | reflexivity | exact Hb | left; exact Hraw].
Defined.

Lemma reordering_benign_lines_witness :
  self (fresh (R := nat) "sort" None [mixed])
  = self (fresh (R := nat) "sort" None [mixed_reordered])
  /\ scripted "sort" ["in.bam"] [mixed] = (mixed, [])
  /\ scripted "sort" ["in.bam"] [mixed_reordered] = (mixed_reordered, [])
  /\ retval mixed = 0%Z
  /\ retval mixed_reordered = 0%Z
  /\ stdout mixed = stdout mixed_reordered
  /\ Permutation (List.filter ignored (stderr_lines mixed))
                 (List.filter ignored (stderr_lines mixed_reordered))
  /\ List.filter (fun x => negb (ignored x)) (stderr_lines mixed)
     = List.filter (fun x => negb (ignored x)) (stderr_lines mixed_reordered)
  /\ raises (fst (__call__ scripted ["in.bam"] ∅ (fresh (R := nat) "sort" None [mixed])))
     = raises (fst (__call__ scripted ["in.bam"] ∅
                      (fresh (R := nat) "sort" None [mixed_reordered])))
  /\ fst (__call__ scripted ["in.bam"] ∅ (fresh (R := nat) "sort" None [mixed]))
     = fst (__call__ scripted ["in.bam"] ∅
              (fresh (R := nat) "sort" None [mixed_reordered])).
Proof.
  assert (Permutation (List.filter ignored (stderr_lines mixed))
                      (List.filter ignored (stderr_lines mixed_reordered))) as Hp
    by (simpl; apply perm_swap).
  split; [reflexivity|]. split; [reflexivity|]. split; [reflexivity|].
  split; [reflexivity|]. split; [reflexivity|]. split; [reflexivity|].
  split; [exact Hp|]. split; [reflexivity|].
  apply (reordering_benign_lines scripted
           (fresh (R := nat) "sort" None [mixed])
           (fresh (R := nat) "sort" None [mixed_reordered])
           ["in.bam"] ∅ mixed mixed_reordered [] []);
    [reflexivity | reflexivity | reflexivity | reflexivity | reflexivity
    | reflexivity | exact Hp | reflexivity].
Defined.

Lemma zero_exit_overwrites_messages_witness :
  scripted "sort" ["in.bam"] [mixed] = (mixed, [])
  /\ (retval mixed = 0%Z ->
      stderr (self (snd (__call__ scripted ["in.bam"] ∅
                           (fresh (R := nat) "sort" None [mixed]))))
      = stderr_lines mixed)
  /\ (retval mixed <> 0%Z ->
      stderr (self (snd (__call__ scripted ["in.bam"] ∅
                           (fresh (R := nat) "sort" None [mixed]))))
      = stderr (self (fresh (R := nat) "sort" None [mixed]))).
Proof.
  split; [reflexivity|].
  apply (zero_exit_overwrites_messages scripted
           (fresh (R := nat) "sort" None [mixed]) ["in.bam"] ∅ mixed []).
  reflexivity.
Defined.

(** C5 as stated fails: the invocation below gets the exit code 1 and the
    line "error: truncated file", it raises, and the dispatcher still
    keeps the empty list it was created with. *)
Lemma nonzero_exit_keeps_messages :
  scripted "view" ["in.bam"] [truncated] = (truncated, [])
  /\ raises (fst (__call__ scripted ["in.bam"] ∅
                    (fresh (R := nat) "view" None [truncated]))) = true
  /\ stderr (self (snd (__call__ scripted ["in.bam"] ∅
                         (fresh (R := nat) "view" None [truncated])))) = []
  /\ stderr (self (snd (__call__ scripted ["in.bam"] ∅
                         (fresh (R := nat) "view" None [truncated]))))
     <> stderr_lines truncated.
Proof.
  split; [reflexivity|]. split; [reflexivity|]. split; [reflexivity|].
  discriminate.
Qed.

(** C8 as stated fails: after an invocation with exit code 0 and one with
    exit code 1, [getMessages] returns the lines of the first, not those
    of the most recent one. *)
Lemma getMessages_stale_after_failure :
  invocation_outcomes scripted [Call ["in.bam"] ∅; Call ["gone.bam"] ∅]
    (fresh (R := nat) "flagstat" None [flagstat_ok; truncated])
  = [flagstat_ok; truncated]
  /\ fst (getMessages
            (after_all scripted [Call ["in.bam"] ∅; Call ["gone.bam"] ∅]
               (fresh (R := nat) "flagstat" None [flagstat_ok; truncated])))
     = Return (stderr_lines flagstat_ok)
  /\ fst (getMessages
            (after_all scripted [Call ["in.bam"] ∅; Call ["gone.bam"] ∅]
               (fresh (R := nat) "flagstat" None [flagstat_ok; truncated])))
     <> Return (stderr_lines truncated).
Proof.
  split; [reflexivity|]. split; [reflexivity|]. discriminate.
Qed.

(** The two examples of the specification. *)

Example flagstat_example :
  fst (__call__ scripted ["in.bam"] ∅ (fresh (R := nat) "flagstat" None [flagstat_ok]))
  = Return (Stdout ("120 total" +:+ Py.nl)).
Proof. reflexivity. Qed.

Example truncated_example :
  fst (__call__ scripted ["in.bam"] ∅ (fresh (R := nat) "flagstat" None [truncated]))
  = Raise (mkSamtoolsError "csamtools returned with error 1: error: truncated file").
Proof. reflexivity. Qed.

Example raw_example :
  fst (__call__ scripted ["-c"; "in.bam"] {["raw" := Py.Bool true]}
         (fresh "pileup" pileup_parsers [flagstat_ok]))
  = Return (Stdout (stdout flagstat_ok))
  /\ fst (__call__ scripted ["-c"; "in.bam"] ∅
            (fresh "pileup" pileup_parsers [flagstat_ok]))
     = Return (Parsed 10%nat)
  /\ fst (__call__ scripted ["in.bam"] ∅
            (fresh "pileup" pileup_parsers [flagstat_ok]))
     = Return (Parsed 0%nat).
Proof. repeat split; vm_compute; reflexivity. Qed.

Example flagstat_registered :
  instantiate (R := nat) SAMTOOLS_DISPATCH !! "flagstat"
  = Some (__init__ "flagstat" None)
  /\ instantiate (R := nat) SAMTOOLS_DISPATCH !! "samimport"
     = Some (__init__ "import" None).
Proof. split; vm_compute; reflexivity. Qed.

(** * Further properties of the dispatcher *)

Section Calls.
Context {World R : Type}.
Variable _samtools_dispatch : string -> list string -> World -> Outcome * World.

(** The dispatcher raises its own exception exactly when the exit code is
    not 0 or some stderr line begins with none of the benign prefixes. *)
Lemma dispatcher_raises_iff (s : Store World R) (args : list string)
  (kwargs : gmap string Py.value) :
  let o := fst (_samtools_dispatch (dispatch (self s)) args (world s)) in
  raises (fst (__call__ _samtools_dispatch args kwargs s)) = true
  <-> (retval o <> 0%Z \/ exists x, In x (stderr_lines o) /\ ~ benign x).
Proof.
  destruct (_samtools_dispatch (dispatch (self s)) args (world s)) as [o w] eqn:He.
  simpl. destruct (Z.eq_dec (retval o) 0) as [Hr|Hr].
  - destruct (suspicious (stderr_lines o)) as [|x l] eqn:E.
    + rewrite (invoke_clean _ s args kwargs o w He Hr E). simpl. split.
      * discriminate.
      * intros [H|(x & Hx & Hb)]; [contradiction|].
        assert (In x (suspicious (stderr_lines o))) as Hin
          by (apply suspicious_In; auto).
        rewrite E in Hin. destruct Hin.
    + assert (suspicious (stderr_lines o) <> []) as N by (rewrite E; discriminate).
      rewrite (invoke_suspicious _ s args kwargs o w He Hr N). simpl.
      split; [|reflexivity]. intros _. right. exists x.
      apply suspicious_In. rewrite E. left. reflexivity.
  - rewrite (invoke_nonzero _ s args kwargs o w He Hr). simpl.
    split; [auto | reflexivity].
Qed.

(** X2: every invocation, whether it returns or raises, calls the native
    routine exactly once, with the command of the dispatcher and the
    positional arguments as they were given, leaves the world as the
    routine left it, and changes neither the command nor the parsers of the
    dispatcher. *)
Theorem invocation_calls_once (s : Store World R) (args : list string)
  (kwargs : gmap string Py.value) :
  let s' := snd (__call__ _samtools_dispatch args kwargs s) in
  log s' = log s ++ [(dispatch (self s), args)]
  /\ world s' = snd (_samtools_dispatch (dispatch (self s)) args (world s))
  /\ dispatch (self s') = dispatch (self s)
  /\ parsers (self s') = parsers (self s).
Proof.
  destruct (_samtools_dispatch (dispatch (self s)) args (world s)) as [o w] eqn:He.
  simpl. rewrite (invoke_store _ s args kwargs o w He).
  destruct (retval o =? 0)%Z; simpl; auto.
Qed.

Lemma after_frame (m : method) (s : Store World R) :
  log (after _samtools_dispatch m s) = log s ++ [request (dispatch (self s)) m]
  /\ dispatch (self (after _samtools_dispatch m s)) = dispatch (self s)
  /\ parsers (self (after _samtools_dispatch m s)) = parsers (self s).
Proof.
  destruct m as [args kwargs|]; simpl.
  - destruct (_samtools_dispatch (dispatch (self s)) args (world s)) as [o w] eqn:He.
    rewrite (invoke_store _ s args kwargs o w He).
    destruct (retval o =? 0)%Z; simpl; auto.
  - rewrite usage_run. simpl. auto.
Qed.

Lemma after_all_frame (ms : list method) (s : Store World R) :
  log (after_all _samtools_dispatch ms s)
  = log s ++ map (request (dispatch (self s))) ms
  /\ dispatch (self (after_all _samtools_dispatch ms s)) = dispatch (self s)
  /\ parsers (self (after_all _samtools_dispatch ms s)) = parsers (self s).
Proof.
  revert s. induction ms as [|m ms IH]; intros s.
  - simpl. rewrite app_nil_r. auto.
  - unfold after_all in *. simpl.
    destruct (IH (after _samtools_dispatch m s)) as (Hl & Hd & Hp).
    destruct (after_frame m s) as (Hl1 & Hd1 & Hp1).
    rewrite Hl, Hd, Hp, Hl1, Hd1, Hp1, <- app_assoc. auto.
Qed.

(** X3: over any sequence of invocations and usage calls, the native
    routine is called once per method call, in order, always with the
    command the dispatcher was created for: an invocation passes its
    arguments, a usage call passes none. *)
Theorem methods_call_log (ms : list method) (s : Store World R) :
  log (after_all _samtools_dispatch ms s)
  = log s ++ map (request (dispatch (self s))) ms
  /\ length (log (after_all _samtools_dispatch ms s))
     = (length (log s) + length ms)%nat.
Proof.
  destruct (after_all_frame ms s) as (Hl & _). split; [exact Hl|].
  rewrite Hl, length_app, length_map. reflexivity.
Qed.

(** X4: no sequence of invocations and usage calls changes the command or
    the parsers a dispatcher was created with. *)
Theorem binding_is_immutable (ms : list method) (s : Store World R) :
  dispatch (self (after_all _samtools_dispatch ms s)) = dispatch (self s)
  /\ parsers (self (after_all _samtools_dispatch ms s)) = parsers (self s).
Proof.
  destruct (after_all_frame ms s) as (_ & Hd & Hp). auto.
Qed.

Lemma invoke_kwargs (s : Store World R) args (k1 k2 : gmap string Py.value) :
  Py.truthy (Py.get k1 "raw") = Py.truthy (Py.get k2 "raw") ->
  __call__ _samtools_dispatch args k1 s = __call__ _samtools_dispatch args k2 s.
Proof.
  intros H. unfold __call__, bind, get_self, call_samtools_dispatch. simpl.
  destruct (_samtools_dispatch (dispatch (self s)) args (world s)) as [o w].
  simpl. rewrite H. reflexivity.
Qed.

(** X5: an invocation reads its keyword arguments only through the truth
    value of [kwargs.get("raw")]: two sets of keyword arguments that agree
    on it give the same result and the same store. *)
Theorem kwargs_only_raw_truth (s : Store World R) (args : list string)
  (k1 k2 : gmap string Py.value) :
  Py.truthy (Py.get k1 "raw") = Py.truthy (Py.get k2 "raw") ->
  __call__ _samtools_dispatch args k1 s = __call__ _samtools_dispatch args k2 s.
Proof. apply invoke_kwargs. Qed.

(** X6: a keyword argument other than [raw] is ignored, whatever its
    value. *)
Theorem other_kwargs_ignored (s : Store World R) (args : list string)
  (kwargs : gmap string Py.value) (k : string) (v : Py.value) :
  k <> "raw" ->
  __call__ _samtools_dispatch args (<[k := v]> kwargs) s
  = __call__ _samtools_dispatch args kwargs s.
Proof.
  intros Hk. apply invoke_kwargs. unfold Py.get.
  rewrite lookup_insert_ne by exact Hk. reflexivity.
Qed.

End Calls.

(** ** The choice of the parser *)

Section Parsers.
Context {R : Type}.

Lemma options_loop_ext (options args1 args2 : list string) :
  (forall x, In x args1 -> In x args2) ->
  options_loop options args1 = true -> options_loop options args2 = true.
Proof.
  intros H. rewrite !options_loop_spec. intros Hm o Ho. apply H, Hm, Ho.
Qed.

Lemma parsers_loop_split (ps : list (binding R)) args out r :
  parsers_loop ps args out = Some r ->
  exists pre options parser post,
    ps = pre ++ (options, parser) :: post
    /\ (forall b, In b pre -> ~ matches args b)
    /\ matches args (options, parser)
    /\ r = parser out.
Proof.
  induction ps as [|[o p] ps IH]; simpl; [discriminate|].
  destruct (options_loop o args) eqn:E.
  - intros [= <-]. exists [], o, p, ps. split; [reflexivity|].
    split; [intros b []|]. split; [|reflexivity].
    apply (options_loop_matches args (o, p)). exact E.
  - intros H. destruct (IH H) as (pre & o' & p' & post & -> & Hpre & Hm & ->).
    exists ((o, p) :: pre), o', p', post. split; [reflexivity|].
    split; [|auto]. intros b [<-|Hb]; [|auto].
    intros Hm'. apply (options_loop_matches args (o, p)) in Hm'. simpl in Hm'.
    congruence.
Qed.

(** X8: the choice of the parser looks only at which strings occur among
    the arguments, not at their order or at how often they occur. *)
Theorem matching_ignores_order (ps : list (binding R))
  (args1 args2 : list string) (out : string) :
  (forall x, In x args1 <-> In x args2) ->
  parsers_loop ps args1 out = parsers_loop ps args2 out.
Proof.
  intros H. induction ps as [|[o p] ps IH]; simpl; [reflexivity|].
  assert (options_loop o args1 = options_loop o args2) as ->.
  { destruct (options_loop o args1) eqn:E1, (options_loop o args2) eqn:E2;
      try reflexivity.
    - apply (options_loop_ext o args1 args2) in E1; [congruence|].
      intros x. apply H.
    - apply (options_loop_ext o args2 args1) in E2; [congruence|].
      intros x. apply H. }
  rewrite IH. reflexivity.
Qed.

(** X9: a binding registered after a binding whose options are all among
    its own is never chosen: taking it out of the list changes nothing. *)
Theorem shadowed_binding_unreachable (pre mid post : list (binding R))
  (o1 o2 : list string) (p1 p2 : string -> R) (args : list string)
  (out : string) :
  (forall x, In x o1 -> In x o2) ->
  parsers_loop (pre ++ (o1, p1) :: mid ++ (o2, p2) :: post) args out
  = parsers_loop (pre ++ (o1, p1) :: mid ++ post) args out.
Proof.
  intros Hsub. induction pre as [|[o p] pre IH]; simpl.
  - destruct (options_loop o1 args) eqn:E1; [reflexivity|].
    induction mid as [|[o p] mid IHm]; simpl.
    + destruct (options_loop o2 args) eqn:E2; [|reflexivity].
      exfalso. rewrite options_loop_spec in E2.
      assert (options_loop o1 args = true) as E
        by (apply options_loop_spec; intros x Hx; apply E2, Hsub, Hx).
      congruence.
    + destruct (options_loop o args); [reflexivity | exact IHm].
  - destruct (options_loop o args); [reflexivity | exact IH].
Qed.

(** X10: when a parser is chosen for some arguments, a parser is chosen
    for any arguments that contain them all: giving more arguments never
    turns a parsed result into the raw standard output. *)
Theorem more_args_keep_parsing (ps : list (binding R))
  (args args' : list string) (out : string) :
  (forall x, In x args -> In x args') ->
  is_Some (parsers_loop ps args out) ->
  is_Some (parsers_loop ps args' out).
Proof.
  intros H. induction ps as [|[o p] ps IH]; simpl; [auto|].
  destruct (options_loop o args) eqn:E.
  - rewrite (options_loop_ext o args args' H E). eauto.
  - intros Hs. destruct (options_loop o args'); [eauto | auto].
Qed.

End Parsers.

Section Parsed.
Context {World R : Type}.
Variable _samtools_dispatch : string -> list string -> World -> Outcome * World.

(** X7: an invocation returns a parsed value only when the exit code is
    0, every stderr line is benign, the raw flag is unset, the standard
    output is not empty, and the value is what the parser of the first
    matching binding makes of the standard output. *)
Theorem parsed_only_if (s : Store World R) (args : list string)
  (kwargs : gmap string Py.value) (r : R) :
  fst (__call__ _samtools_dispatch args kwargs s) = Return (Parsed r) ->
  let o := fst (_samtools_dispatch (dispatch (self s)) args (world s)) in
  retval o = 0%Z
  /\ Forall benign (stderr_lines o)
  /\ ~ raw_set kwargs
  /\ stdout o <> ""
  /\ exists pre options parser post,
       parsers (self s) = Some (pre ++ (options, parser) :: post)
       /\ (forall b, In b pre -> ~ matches args b)
       /\ matches args (options, parser)
       /\ r = parser (stdout o).
Proof.
  destruct (_samtools_dispatch (dispatch (self s)) args (world s)) as [o w] eqn:He.
  simpl. destruct (Z.eq_dec (retval o) 0) as [Hr|Hr].
  - destruct (suspicious (stderr_lines o)) as [|x l] eqn:E.
    + rewrite (invoke_clean _ s args kwargs o w He Hr E). simpl.
      destruct (negb (Py.truthy (Py.get kwargs "raw"))) eqn:Hraw;
        [|discriminate].
      destruct (stdout o) as [|c out] eqn:Hout; [discriminate|].
      destruct (parsers (self s)) as [ps|] eqn:Hp; [|discriminate].
      simpl. destruct ps as [|b ps]; [discriminate|]. simpl andb. cbv iota.
      destruct (parsers_loop (b :: ps) args (String c out)) as [r'|] eqn:Hl;
        [|discriminate].
      intros [= <-]. split; [exact Hr|].
      split; [apply suspicious_nil_iff; exact E|].
      split; [unfold raw_set; apply negb_true_iff in Hraw; congruence|].
      split; [discriminate|].
      apply parsers_loop_split in Hl as (pre & o' & p' & post & Hps & Hpre & Hm & ->).
      exists pre, o', p', post. rewrite Hps. auto.
    + assert (suspicious (stderr_lines o) <> []) as N by (rewrite E; discriminate).
      rewrite (invoke_suspicious _ s args kwargs o w He Hr N). discriminate.
  - rewrite (invoke_nonzero _ s args kwargs o w He Hr). discriminate.
Qed.

End Parsed.

(** ** The ignored lines *)

(** X11: a line is ignored only if it begins with an opening bracket and
    has at least 15 characters: the empty line and any line that begins
    with another character count as errors. *)
Theorem ignored_begins_with_bracket (x : string) :
  ignored x = true ->
  (exists rest, x = String "["%char rest) /\ (15 <= String.length x)%nat.
Proof.
  intros H. apply ignored_spec in H as (p & rest & Hp & ->).
  destruct Hp as [<-|[<-|[<-|[<-|[]]]]];
    (split; [eexists; reflexivity|]);
    repeat (change (String.length (String ?c ?s +:+ rest))
              with (S (String.length (s +:+ rest)))); simpl; lia.
Qed.

(** X12: a line stays ignored whatever is written after it: only its
    beginning is looked at. *)
Theorem ignored_extends (x y : string) :
  ignored x = true -> ignored (x +:+ y) = true.
Proof.
  rewrite !ignored_spec. intros (p & rest & Hp & ->).
  exists p, (rest +:+ y). split; [exact Hp|]. apply append_assoc.
Qed.

(** ** The message of a failed command *)

Lemma colon_free_uint (d : Decimal.uint) :
  colon_free (NilEmpty.string_of_uint d) = true.
Proof. induction d; simpl; auto. Qed.

Lemma colon_free_format_i (z : Z) : colon_free (Py.format_i z) = true.
Proof.
  unfold Py.format_i. destruct (Z.to_int z) as [d|d]; simpl.
  - destruct d; simpl; auto using colon_free_uint.
  - destruct d; simpl; auto using colon_free_uint.
Qed.

Lemma colon_free_split (a b x y : string) :
  colon_free a = true -> colon_free b = true ->
  a +:+ ":" +:+ x = b +:+ ":" +:+ y -> a = b /\ x = y.
Proof.
  revert b. induction a as [|c a IH]; intros [|d b] Ha Hb H.
  - change (String ":" x = String ":" y) in H. injection H as ->. auto.
  - change (String ":" x = String d (b +:+ ":" +:+ y)) in H.
    injection H as <- _. simpl in Hb. discriminate.
  - change (String c (a +:+ ":" +:+ x) = String ":" y) in H.
    injection H as -> _. simpl in Ha. discriminate.
  - change (String c (a +:+ ":" +:+ x) = String d (b +:+ ":" +:+ y)) in H.
    injection H as -> H. simpl in Ha, Hb.
    apply andb_true_iff in Ha as [_ Ha]. apply andb_true_iff in Hb as [_ Hb].
    destruct (IH b Ha Hb H) as [-> ->]. auto.
Qed.

Lemma format_i_inj (z1 z2 : Z) : Py.format_i z1 = Py.format_i z2 -> z1 = z2.
Proof.
  intros H. pose proof (format_i_read z1) as H1. rewrite H, format_i_read in H1.
  congruence.
Qed.

Lemma error_message_inj (o1 o2 : Outcome) :
  error_message o1 = error_message o2 ->
  retval o1 = retval o2
  /\ Py.join Py.nl (stderr_lines o1) = Py.join Py.nl (stderr_lines o2).
Proof.
  unfold error_message. intros H.
  apply (inj (String.append "csamtools returned with error ")) in H.
  change (Py.format_i (retval o1) +:+ ":" +:+ (" " +:+ Py.join Py.nl (stderr_lines o1))
          = Py.format_i (retval o2) +:+ ":" +:+ (" " +:+ Py.join Py.nl (stderr_lines o2)))
    in H.
  apply colon_free_split in H as [Hf Hj]; try apply colon_free_format_i.
  split; [apply format_i_inj; exact Hf|]. injection Hj as Hj. exact Hj.
Qed.

Section Messages.
Context {World R : Type}.
Variable _samtools_dispatch : string -> list string -> World -> Outcome * World.

(** X13: the message raised for a non-zero exit code tells the exit code
    and the joined stderr text: two invocations that fail with a non-zero
    exit code and raise the same exception had the same exit code and the
    same joined stderr text. *)
Theorem failure_message_tells_exit_code (s1 s2 : Store World R)
  (args1 args2 : list string) (k1 k2 : gmap string Py.value) :
  let o1 := fst (_samtools_dispatch (dispatch (self s1)) args1 (world s1)) in
  let o2 := fst (_samtools_dispatch (dispatch (self s2)) args2 (world s2)) in
  retval o1 <> 0%Z ->
  retval o2 <> 0%Z ->
  fst (__call__ _samtools_dispatch args1 k1 s1)
  = fst (__call__ _samtools_dispatch args2 k2 s2) ->
  retval o1 = retval o2
  /\ Py.join Py.nl (stderr_lines o1) = Py.join Py.nl (stderr_lines o2).
Proof.
  destruct (_samtools_dispatch (dispatch (self s1)) args1 (world s1))
    as [o1 w1] eqn:He1.
  destruct (_samtools_dispatch (dispatch (self s2)) args2 (world s2))
    as [o2 w2] eqn:He2.
  simpl. intros Hr1 Hr2.
  rewrite (invoke_nonzero _ s1 args1 k1 o1 w1 He1 Hr1).
  rewrite (invoke_nonzero _ s2 args2 k2 o2 w2 He2 Hr2).
  simpl. intros H. apply error_message_inj.
  exact (f_equal (fun c : completion (result R) =>
                    match c with Raise e => value e | Return _ => "" end) H).
Qed.

End Messages.

(** ** The table of commands *)

Section Table.
Context {R : Type}.

Lemma instantiate_fold_fresh
  (table : list (string * (string * option (list (binding R)))))
  (g : gmap string (SamtoolsDispatcher R)) (key : string) :
  ~ In key (map fst table) ->
  fold_left
    (fun globals entry =>
       let '(key, (cmd, parser)) := entry in
       <[key := __init__ cmd parser]> globals) table g !! key
  = g !! key.
Proof.
  revert g. induction table as [|[k [c p]] table IH]; intros g Hk; [reflexivity|].
  simpl in *. rewrite IH by tauto. apply lookup_insert_ne. tauto.
Qed.

Lemma instantiate_fold_in
  (table : list (string * (string * option (list (binding R)))))
  (g : gmap string (SamtoolsDispatcher R)) (key cmd : string)
  (parser : option (list (binding R))) :
  NoDup (map fst table) ->
  In (key, (cmd, parser)) table ->
  fold_left
    (fun globals entry =>
       let '(key, (cmd, parser)) := entry in
       <[key := __init__ cmd parser]> globals) table g !! key
  = Some (__init__ cmd parser).
Proof.
  revert g. induction table as [|[k [c p]] table IH]; intros g Hnd Hin; [destruct Hin|].
  simpl in *. apply NoDup_cons in Hnd as [Hk Hnd]. destruct Hin as [[= -> -> ->]|Hin].
  - rewrite instantiate_fold_fresh by (rewrite <- list_elem_of_In; exact Hk).
    apply lookup_insert_eq.
  - apply IH; assumption.
Qed.

Lemma instantiate_fold_some
  (table : list (string * (string * option (list (binding R)))))
  (g : gmap string (SamtoolsDispatcher R)) (key : string) :
  is_Some (fold_left
             (fun globals entry =>
                let '(key, (cmd, parser)) := entry in
                <[key := __init__ cmd parser]> globals) table g !! key)
  <-> In key (map fst table) \/ is_Some (g !! key).
Proof.
  revert g. induction table as [|[k [c p]] table IH]; intros g; simpl.
  - tauto.
  - rewrite IH. destruct (decide (k = key)) as [->|Hne].
    + rewrite lookup_insert_eq. split; [intros _; left; left; reflexivity|eauto].
    + rewrite lookup_insert_ne by exact Hne. tauto.
Qed.


Lemma instantiate_some_iff
  (table : list (string * (string * option (list (binding R)))))
  (key : string) :
  is_Some (instantiate table !! key) <-> In key (map fst table).
Proof.
  unfold instantiate. rewrite instantiate_fold_some, lookup_empty.
  split; [intros [H|[x H]]; [exact H | discriminate] | auto].
Qed.


Lemma SAMTOOLS_DISPATCH_NoDup :
  NoDup (map fst (SAMTOOLS_DISPATCH (R := R))).
Proof. apply (bool_decide_unpack _). vm_compute. reflexivity. Qed.

Lemma SAMTOOLS_DISPATCH_entry (key : string) (d : SamtoolsDispatcher R) :
  instantiate SAMTOOLS_DISPATCH !! key = Some d ->
  d = mkSamtoolsDispatcher
        (if String.eqb key "samimport" then "import" else key) None [].
Proof.
  intros H. assert (In key (map fst (SAMTOOLS_DISPATCH (R := R)))) as Hin
    by (apply instantiate_some_iff; eauto).
  apply in_map_iff in Hin as ([k [c p]] & Hk & Hin). simpl in Hk. subst k.
  unfold instantiate in H.
  rewrite (instantiate_fold_in SAMTOOLS_DISPATCH ∅ key c p
             SAMTOOLS_DISPATCH_NoDup Hin) in H.
  injection H as <-. unfold SAMTOOLS_DISPATCH in Hin. simpl in Hin.
  repeat (destruct Hin as [Hin|Hin]; [injection Hin as <- <- <-; reflexivity|]).
  destruct Hin.
Qed.

(** X16: every function made from [SAMTOOLS_DISPATCH] runs the samtools
    command of its own name, except [samimport], which runs [import]; none
    has parsers and each starts with no messages. *)
Theorem exported_commands (key : string) (d : SamtoolsDispatcher R) :
  instantiate SAMTOOLS_DISPATCH !! key = Some d ->
  dispatch d = (if String.eqb key "samimport" then "import" else key)
  /\ parsers d = None
  /\ stderr d = [].
Proof.
  intros H. rewrite (SAMTOOLS_DISPATCH_entry key d H). auto.
Qed.

(** X17: every name that the loop over [SAMTOOLS_DISPATCH] binds to a
    dispatcher is listed in [__all__], whatever the extension modules
    export, and so are SamtoolsError, SamtoolsDispatcher and Pileup. *)
Theorem exported_names_in_all (csamtools_all ctabix_all cvcf_all : list string)
  (key : string) :
  is_Some (instantiate (R := R) SAMTOOLS_DISPATCH !! key)
  \/ In key ["SamtoolsError"; "SamtoolsDispatcher"; "Pileup"]
  \/ In key csamtools_all \/ In key ctabix_all \/ In key cvcf_all ->
  In key (__all__ csamtools_all ctabix_all cvcf_all).
Proof.
  unfold __all__. rewrite !in_app_iff.
  intros [H|[H|[H|[H|H]]]]; auto.
  - right. right. right. right. left.
    apply (instantiate_some_iff (SAMTOOLS_DISPATCH (R := R))) in H.
    exact H.
  - simpl in H. destruct H as [<-|[<-|[<-|[]]]]; simpl; tauto.
Qed.

End Table.

Section TableCalls.
Context {World R : Type}.
Variable _samtools_dispatch : string -> list string -> World -> Outcome * World.

(** X18: a function made from [SAMTOOLS_DISPATCH], after any sequence of
    earlier invocations and usage calls, returns the standard output as it
    is whenever it succeeds, whatever its arguments and keyword arguments:
    no command of the table has a parser. *)
Theorem exported_commands_return_stdout (key : string) (s0 : Store World R)
  (ms : list method) (args : list string) (kwargs : gmap string Py.value) :
  instantiate SAMTOOLS_DISPATCH !! key = Some (self s0) ->
  let s := after_all _samtools_dispatch ms s0 in
  let o := fst (_samtools_dispatch (dispatch (self s)) args (world s)) in
  retval o = 0%Z ->
  Forall benign (stderr_lines o) ->
  fst (__call__ _samtools_dispatch args kwargs s) = Return (Stdout (stdout o)).
Proof.
  intros Hk s.
  destruct (_samtools_dispatch (dispatch (self s)) args (world s)) as [o w] eqn:He.
  simpl. intros Hr Hb. apply suspicious_nil_iff in Hb.
  rewrite (invoke_clean _ s args kwargs o w He Hr Hb). simpl.
  assert (parsers (self s) = None) as ->.
  { unfold s. destruct (after_all_frame _samtools_dispatch ms s0) as (_ & _ & ->).
    rewrite (SAMTOOLS_DISPATCH_entry key (self s0) Hk). reflexivity. }
  rewrite andb_false_r. reflexivity.
Qed.

End TableCalls.

(** ** The further properties at concrete inputs *)

Lemma kwargs_only_raw_truth_witness :
  Py.truthy (Py.get {["raw" := Py.Int 1]} "raw")
  = Py.truthy (Py.get {["raw" := Py.Str "no"]} "raw")
  /\ __call__ scripted ["-c"; "in.bam"] {["raw" := Py.Int 1]}
       (fresh "pileup" pileup_parsers [flagstat_ok])
     = __call__ scripted ["-c"; "in.bam"] {["raw" := Py.Str "no"]}
         (fresh "pileup" pileup_parsers [flagstat_ok]).
Proof.
  split; [vm_compute; reflexivity|].
  apply (kwargs_only_raw_truth scripted (fresh "pileup" pileup_parsers [flagstat_ok])
           ["-c"; "in.bam"] {["raw" := Py.Int 1]} {["raw" := Py.Str "no"]}).
  vm_compute. reflexivity.
Defined.

Lemma other_kwargs_ignored_witness :
  "region" <> "raw"
  /\ __call__ scripted ["-c"; "in.bam"] (<["region" := Py.Str "chr1"]> ∅)
       (fresh "pileup" pileup_parsers [flagstat_ok])
     = __call__ scripted ["-c"; "in.bam"] ∅
         (fresh "pileup" pileup_parsers [flagstat_ok]).
Proof.
  split; [discriminate|].
  apply (other_kwargs_ignored scripted (fresh "pileup" pileup_parsers [flagstat_ok])
           ["-c"; "in.bam"] ∅ "region" (Py.Str "chr1")).
  discriminate.
Defined.

Lemma parsed_only_if_witness :
  fst (__call__ scripted ["-c"; "in.bam"] ∅
         (fresh "pileup" pileup_parsers [flagstat_ok]))
  = Return (Parsed 10%nat)
  /\ retval flagstat_ok = 0%Z
  /\ Forall benign (stderr_lines flagstat_ok)
  /\ ~ raw_set ∅
  /\ stdout flagstat_ok <> ""
  /\ exists pre options parser post,
       pileup_parsers = Some (pre ++ (options, parser) :: post)
       /\ (forall b, In b pre -> ~ matches ["-c"; "in.bam"] b)
       /\ matches ["-c"; "in.bam"] (options, parser)
       /\ 10%nat = parser (stdout flagstat_ok).
Proof.
  split; [vm_compute; reflexivity|].
  apply (parsed_only_if scripted (fresh "pileup" pileup_parsers [flagstat_ok])
           ["-c"; "in.bam"] ∅ 10%nat).
  vm_compute. reflexivity.
Defined.

Lemma matching_ignores_order_witness :
  (forall x, In x ["-c"; "in.bam"] <-> In x ["in.bam"; "-c"; "-c"])
  /\ parsers_loop [(["-c"], String.length); ([], fun _ => 0%nat)]
       ["-c"; "in.bam"] "chr1"
     = parsers_loop [(["-c"], String.length); ([], fun _ => 0%nat)]
         ["in.bam"; "-c"; "-c"] "chr1".
Proof.
  assert (forall x, In x ["-c"; "in.bam"] <-> In x ["in.bam"; "-c"; "-c"]) as H
    by (intros x; simpl; tauto).
  split; [exact H|].
  apply (matching_ignores_order [(["-c"], String.length); ([], fun _ => 0%nat)]
           ["-c"; "in.bam"] ["in.bam"; "-c"; "-c"] "chr1" H).
Defined.

Lemma shadowed_binding_unreachable_witness :
  (forall x, In x ["-c"] -> In x ["-c"; "-f"])
  /\ parsers_loop ([] ++ (["-c"], String.length)
                      :: [] ++ (["-c"; "-f"], fun _ => 7%nat) :: [])
       ["-c"; "-f"; "in.bam"] "chr1"
     = parsers_loop ([] ++ (["-c"], String.length) :: [] ++ [])
         ["-c"; "-f"; "in.bam"] "chr1".
Proof.
  assert (forall x, In x ["-c"] -> In x ["-c"; "-f"]) as H
    by (intros x; simpl; tauto).
  split; [exact H|].
  apply (shadowed_binding_unreachable [] [] [] ["-c"] ["-c"; "-f"]
           String.length (fun _ => 7%nat) ["-c"; "-f"; "in.bam"] "chr1" H).
Defined.

Lemma more_args_keep_parsing_witness :
  (forall x, In x ["-c"] -> In x ["-c"; "in.bam"])
  /\ is_Some (parsers_loop [(["-c"], String.length)] ["-c"] "chr1")
  /\ is_Some (parsers_loop [(["-c"], String.length)] ["-c"; "in.bam"] "chr1").
Proof.
  assert (forall x, In x ["-c"] -> In x ["-c"; "in.bam"]) as H
    by (intros x; simpl; tauto).
  assert (is_Some (parsers_loop [(["-c"], String.length)] ["-c"] "chr1")) as Hs
    by (vm_compute; eauto).
  split; [exact H|]. split; [exact Hs|].
  apply (more_args_keep_parsing [(["-c"], String.length)] ["-c"]
           ["-c"; "in.bam"] "chr1" H Hs).
Defined.

Lemma ignored_begins_with_bracket_witness :
  ignored "[bam_sort_core] merging from 2 files..." = true
  /\ (exists rest,
        "[bam_sort_core] merging from 2 files..." = String "["%char rest)
  /\ (15 <= String.length "[bam_sort_core] merging from 2 files...")%nat.
Proof.
  split; [reflexivity|].
  apply (ignored_begins_with_bracket "[bam_sort_core] merging from 2 files...").
  reflexivity.
Defined.

Lemma ignored_extends_witness :
  ignored "[bam_index_load]" = true
  /\ ignored ("[bam_index_load]" +:+ " fail to load index") = true.
Proof.
  split; [reflexivity|].
  apply (ignored_extends "[bam_index_load]" " fail to load index").
  reflexivity.
Defined.

Lemma failure_message_tells_exit_code_witness :
  retval truncated <> 0%Z
  /\ fst (__call__ scripted ["a.bam"] ∅ (fresh (R := nat) "view" None [truncated]))
     = fst (__call__ scripted ["b.bam"] {["raw" := Py.Bool true]}
              (fresh (R := nat) "sort" None [truncated]))
  /\ retval truncated = retval truncated
  /\ Py.join Py.nl (stderr_lines truncated)
     = Py.join Py.nl (stderr_lines truncated).
Proof.
  split; [discriminate|]. split; [reflexivity|].
  apply (failure_message_tells_exit_code scripted
           (fresh (R := nat) "view" None [truncated])
           (fresh (R := nat) "sort" None [truncated])
           ["a.bam"] ["b.bam"] ∅ {["raw" := Py.Bool true]});
    [discriminate | discriminate | reflexivity].
Defined.


Lemma exported_commands_witness :
  instantiate (R := nat) SAMTOOLS_DISPATCH !! "samimport"
  = Some (mkSamtoolsDispatcher "import" None [])
  /\ dispatch (mkSamtoolsDispatcher (R := nat) "import" None [])
     = (if String.eqb "samimport" "samimport" then "import" else "samimport")
  /\ parsers (mkSamtoolsDispatcher (R := nat) "import" None []) = None
  /\ stderr (mkSamtoolsDispatcher (R := nat) "import" None []) = [].
Proof.
  split; [vm_compute; reflexivity|].
  apply (exported_commands "samimport" (mkSamtoolsDispatcher (R := nat) "import" None [])).
  vm_compute. reflexivity.
Defined.

Lemma exported_names_in_all_witness :
  (is_Some (instantiate (R := nat) SAMTOOLS_DISPATCH !! "flagstat")
   \/ In "flagstat" ["SamtoolsError"; "SamtoolsDispatcher"; "Pileup"]
   \/ In "flagstat" ["Samfile"] \/ In "flagstat" ["Tabixfile"]
   \/ In "flagstat" ["VCF"])
  /\ In "flagstat" (__all__ ["Samfile"] ["Tabixfile"] ["VCF"]).
Proof.
  assert (is_Some (instantiate (R := nat) SAMTOOLS_DISPATCH !! "flagstat")) as H
    by (vm_compute; eauto).
  split; [left; exact H|].
  apply (exported_names_in_all (R := nat) ["Samfile"] ["Tabixfile"] ["VCF"] "flagstat").
  left. exact H.
Defined.

Lemma exported_commands_return_stdout_witness :
  instantiate (R := nat) SAMTOOLS_DISPATCH !! "flagstat"
  = Some (self (fresh (R := nat) "flagstat" None [truncated; flagstat_ok]))
  /\ retval flagstat_ok = 0%Z
  /\ Forall benign (stderr_lines flagstat_ok)
  /\ fst (__call__ scripted ["in.bam"] {["raw" := Py.Bool false]}
            (after_all scripted [Call ["gone.bam"] ∅]
               (fresh (R := nat) "flagstat" None [truncated; flagstat_ok])))
     = Return (Stdout (stdout flagstat_ok)).
Proof.
  assert (Forall benign (stderr_lines flagstat_ok)) as Hb
    by (apply suspicious_nil_iff; reflexivity).
  split; [vm_compute; reflexivity|]. split; [reflexivity|]. split; [exact Hb|].
  apply (exported_commands_return_stdout scripted "flagstat"
           (fresh (R := nat) "flagstat" None [truncated; flagstat_ok])
           [Call ["gone.bam"] ∅] ["in.bam"] {["raw" := Py.Bool false]});
    [vm_compute; reflexivity | reflexivity | exact Hb].
Defined.

(** ** Invocations of a dispatcher whose parsers may raise *)

Lemma parsers_loop_none_inv {R : Type} (ps : list (binding R))
  (args : list string) (out : string) :
  parsers_loop ps args out = None ->
  forall b, In b ps -> ~ matches args b.
Proof.
  induction ps as [|[o p] ps IH]; simpl; [intros _ b []|].
  destruct (options_loop o args) eqn:E; [discriminate|].
  intros H b [<-|Hb]; [|apply IH; assumption].
  intros Hm. apply (options_loop_matches args (o, p)) in Hm. simpl in Hm.
  congruence.
Qed.

Section Raising.
Context {World V : Type}.
Variable _samtools_dispatch : string -> list string -> World -> Outcome * World.

Lemma invoke_propagate (s : Store World (evaluation V)) args kwargs :
  invoke _samtools_dispatch args kwargs s
  = (propagate (fst (__call__ _samtools_dispatch args kwargs s)),
     snd (__call__ _samtools_dispatch args kwargs s)).
Proof.
  unfold invoke. destruct (__call__ _samtools_dispatch args kwargs s).
  reflexivity.
Qed.

(** With exit code 0 and only benign lines, the invocation ends as the
    call of the first matching parser ends, or returns the standard
    output when no parser is called. *)
Lemma invoke_benign_cases (s : Store World (evaluation V)) args kwargs o w :
  _samtools_dispatch (dispatch (self s)) args (world s) = (o, w) ->
  retval o = 0%Z ->
  suspicious (stderr_lines o) = [] ->
  (exists pre options parser post,
      ~ raw_set kwargs /\ stdout o <> ""
      /\ parsers (self s) = Some (pre ++ (options, parser) :: post)
      /\ (forall b, In b pre -> ~ matches args b)
      /\ matches args (options, parser)
      /\ fst (invoke _samtools_dispatch args kwargs s)
         = delivered (parser (stdout o)))
  \/ ((raw_set kwargs \/ stdout o = ""
       \/ forall ps b, parsers (self s) = Some ps -> In b ps -> ~ matches args b)
      /\ fst (invoke _samtools_dispatch args kwargs s)
         = Returns (Stdout (stdout o))).
Proof.
  intros He Hr Hs. rewrite invoke_propagate.
  rewrite (invoke_clean _ s args kwargs o w He Hr Hs). simpl fst.
  destruct (Py.truthy (Py.get kwargs "raw")) eqn:Hraw.
  { right. split; [left; exact Hraw | reflexivity]. }
  assert (~ raw_set kwargs) as Hnraw by (unfold raw_set; congruence).
  destruct (stdout o) as [|c out] eqn:Hout.
  { right. split; [right; left; reflexivity | reflexivity]. }
  destruct (parsers (self s)) as [ps|] eqn:Hp.
  2:{ right. split; [|reflexivity]. right. right. intros ps b [=]. }
  destruct ps as [|b0 ps].
  { right. split; [|reflexivity]. right. right. intros ps b [= <-] []. }
  simpl negb. simpl andb. cbv iota. simpl default.
  destruct (parsers_loop (b0 :: ps) args (String c out)) as [r|] eqn:Hl.
  - left. apply parsers_loop_split in Hl as (pre & o' & p' & post & Hps & Hpre & Hm & ->).
    exists pre, o', p', post. rewrite Hps.
    split; [exact Hnraw|]. split; [discriminate|]. split; [reflexivity|].
    split; [exact Hpre|]. split; [exact Hm | reflexivity].
  - right. split; [|reflexivity]. right. right. intros ps' b [= <-].
    apply (parsers_loop_none_inv (b0 :: ps) args (String c out) Hl).
Qed.

(** C3, amended: when the exit code is 0 and every stderr line begins
    with a benign prefix, the dispatcher raises nothing of its own.  The
    invocation returns the standard output when the raw flag is set, the
    standard output is empty or no binding matches; otherwise it ends as
    the call of the first matching parser on the standard output ends: it
    returns the parser's value, or the exception the parser raises goes
    through to the caller.  So every exception that leaves such an
    invocation was raised by the chosen parser, and when no registered
    parser raises on the standard output the invocation returns. *)
Theorem benign_stderr_outcome (s : Store World (evaluation V))
  (args : list string) (kwargs : gmap string Py.value) (o : Outcome) (w : World) :
  _samtools_dispatch (dispatch (self s)) args (world s) = (o, w) ->
  retval o = 0%Z ->
  Forall benign (stderr_lines o) ->
  ((exists pre options parser post,
       ~ raw_set kwargs /\ stdout o <> ""
       /\ parsers (self s) = Some (pre ++ (options, parser) :: post)
       /\ (forall b, In b pre -> ~ matches args b)
       /\ matches args (options, parser)
       /\ fst (invoke _samtools_dispatch args kwargs s)
          = delivered (parser (stdout o)))
   \/ ((raw_set kwargs \/ stdout o = ""
        \/ forall ps b, parsers (self s) = Some ps -> In b ps -> ~ matches args b)
       /\ fst (invoke _samtools_dispatch args kwargs s)
          = Returns (Stdout (stdout o))))
  /\ (forall x,
        fst (invoke _samtools_dispatch args kwargs s) = Raises x ->
        exists ps options parser,
          parsers (self s) = Some ps
          /\ In (options, parser) ps
          /\ matches args (options, parser)
          /\ parser (stdout o) = Raises x)
  /\ ((forall ps b, parsers (self s) = Some ps -> In b ps ->
                    raising (snd b (stdout o)) = false) ->
      raising (fst (invoke _samtools_dispatch args kwargs s)) = false).
Proof.
  intros He Hr Hb. apply suspicious_nil_iff in Hb.
  pose proof (invoke_benign_cases s args kwargs o w He Hr Hb) as Hc.
  split; [exact Hc|]. split.
  - intros x Hx.
    destruct Hc as [(pre & o' & p' & post & _ & _ & Hp & _ & Hm & E)|[_ E]].
    + exists (pre ++ (o', p') :: post), o', p'. split; [exact Hp|].
      split; [apply in_or_app; right; left; reflexivity|]. split; [exact Hm|].
      rewrite E in Hx. destruct (p' (stdout o)) as [v|y]; simpl in Hx.
      * discriminate.
      * congruence.
    + rewrite E in Hx. discriminate.
  - intros Hall.
    destruct Hc as [(pre & o' & p' & post & _ & _ & Hp & _ & _ & E)|[_ E]].
    + rewrite E.
      assert (raising (p' (stdout o)) = false) as Hq.
      { apply (Hall (pre ++ (o', p') :: post) (o', p') Hp).
        apply in_or_app. right. left. reflexivity. }
      destruct (p' (stdout o)); [reflexivity | discriminate].
    + rewrite E. reflexivity.
Qed.

(** X1: an invocation raises exactly when the exit code is not 0, or some
    stderr line begins with none of the benign prefixes, or the raw flag
    is unset, the standard output is not empty and the parser of the first
    matching binding raises on the standard output; nothing else makes it
    raise. *)
Theorem invocation_raises_iff (s : Store World (evaluation V))
  (args : list string) (kwargs : gmap string Py.value) :
  let o := fst (_samtools_dispatch (dispatch (self s)) args (world s)) in
  raising (fst (invoke _samtools_dispatch args kwargs s)) = true
  <-> (retval o <> 0%Z
       \/ (exists x, In x (stderr_lines o) /\ ~ benign x)
       \/ (~ raw_set kwargs /\ stdout o <> ""
           /\ exists pre options parser post,
                parsers (self s) = Some (pre ++ (options, parser) :: post)
                /\ (forall b, In b pre -> ~ matches args b)
                /\ matches args (options, parser)
                /\ raising (parser (stdout o)) = true)).
Proof.
  destruct (_samtools_dispatch (dispatch (self s)) args (world s)) as [o w] eqn:He.
  simpl. destruct (Z.eq_dec (retval o) 0) as [Hr|Hr].
  - destruct (suspicious (stderr_lines o)) as [|x l] eqn:E.
    + destruct (invoke_benign_cases s args kwargs o w He Hr E)
        as [(pre & o' & p' & post & Hnraw & Hout & Hp & Hpre & Hm & Ei)|[Hno Ei]];
        rewrite Ei.
      * assert (raising (delivered (p' (stdout o))) = raising (p' (stdout o))) as ->
          by (destruct (p' (stdout o)); reflexivity).
        split.
        -- intros Hq. right. right. split; [exact Hnraw|]. split; [exact Hout|].
           exists pre, o', p', post. auto.
        -- intros [H|[(y & Hy & Hb)|(_ & _ & pre2 & o2 & p2 & post2 & Hp2 & Hpre2 & Hm2 & Hq)]].
           ++ contradiction.
           ++ assert (In y (suspicious (stderr_lines o))) as Hin
                by (apply suspicious_In; auto).
              rewrite E in Hin. destruct Hin.
           ++ assert (parsers_loop (pre ++ (o', p') :: post) args (stdout o)
                      = Some (p' (stdout o))) as L1
                by (apply parsers_loop_first; assumption).
              assert (parsers_loop (pre2 ++ (o2, p2) :: post2) args (stdout o)
                      = Some (p2 (stdout o))) as L2
                by (apply parsers_loop_first; assumption).
              rewrite Hp in Hp2. injection Hp2 as Hp2. unfold binding in *.
              rewrite Hp2 in L1. rewrite L1 in L2. injection L2 as ->. exact Hq.
      * simpl. split; [discriminate|].
        intros [H|[(y & Hy & Hb)|(Hnraw & Hout & pre2 & o2 & p2 & post2 & Hp2 & Hpre2 & Hm2 & Hq)]].
        -- contradiction.
        -- assert (In y (suspicious (stderr_lines o))) as Hin
             by (apply suspicious_In; auto).
           rewrite E in Hin. destruct Hin.
        -- exfalso. destruct Hno as [Hraw|[Hempty|Hnone]].
           ++ contradiction.
           ++ contradiction.
           ++ apply (Hnone _ (o2, p2) Hp2); [|exact Hm2].
              apply in_or_app. right. left. reflexivity.
    + assert (suspicious (stderr_lines o) <> []) as N by (rewrite E; discriminate).
      rewrite invoke_propagate, (invoke_suspicious _ s args kwargs o w He Hr N).
      simpl. split; [|reflexivity]. intros _. right. left. exists x.
      apply suspicious_In. rewrite E. left. reflexivity.
  - rewrite invoke_propagate, (invoke_nonzero _ s args kwargs o w He Hr). simpl.
    split; [auto | reflexivity].
Qed.

End Raising.

Lemma benign_stderr_outcome_witness :
  scripted "pileup" ["in.bam"] [flagstat_ok] = (flagstat_ok, [])
  /\ retval flagstat_ok = 0%Z
  /\ Forall benign (stderr_lines flagstat_ok)
  /\ ((exists pre options parser post,
          ~ raw_set ∅ /\ stdout flagstat_ok <> ""
          /\ parsers (self (fresh "pileup" strict_parsers [flagstat_ok]))
             = Some (pre ++ (options, parser) :: post)
          /\ (forall b, In b pre -> ~ matches ["in.bam"] b)
          /\ matches ["in.bam"] (options, parser)
          /\ fst (invoke scripted ["in.bam"] ∅
                    (fresh "pileup" strict_parsers [flagstat_ok]))
             = delivered (parser (stdout flagstat_ok)))
      \/ ((raw_set ∅ \/ stdout flagstat_ok = ""
           \/ forall ps b,
                parsers (self (fresh "pileup" strict_parsers [flagstat_ok])) = Some ps ->
                In b ps -> ~ matches ["in.bam"] b)
          /\ fst (invoke scripted ["in.bam"] ∅
                    (fresh "pileup" strict_parsers [flagstat_ok]))
             = Returns (Stdout (stdout flagstat_ok))))
  /\ (forall x,
        fst (invoke scripted ["in.bam"] ∅
               (fresh "pileup" strict_parsers [flagstat_ok])) = Raises x ->
        exists ps options parser,
          parsers (self (fresh "pileup" strict_parsers [flagstat_ok])) = Some ps
          /\ In (options, parser) ps
          /\ matches ["in.bam"] (options, parser)
          /\ parser (stdout flagstat_ok) = Raises x)
  /\ ((forall ps b,
         parsers (self (fresh "pileup" strict_parsers [flagstat_ok])) = Some ps ->
         In b ps -> raising (snd b (stdout flagstat_ok)) = false) ->
      raising (fst (invoke scripted ["in.bam"] ∅
                      (fresh "pileup" strict_parsers [flagstat_ok]))) = false).
Proof.
  assert (Forall benign (stderr_lines flagstat_ok)) as H
    by (apply suspicious_nil_iff; reflexivity).
  split; [reflexivity|]. split; [reflexivity|]. split; [exact H|].
  apply (benign_stderr_outcome scripted (fresh "pileup" strict_parsers [flagstat_ok])
           ["in.bam"] ∅ flagstat_ok []);
    [reflexivity | reflexivity | exact H].
Defined.

(** C3 as stated fails: the invocation below gets the exit code 0 and one
    benign stderr line, its arguments select the parser registered for
    "-c", the parser raises ValueError, and so does the invocation. *)
Lemma benign_stderr_parser_raises :
  scripted "pileup" ["-c"; "in.bam"] [flagstat_ok] = (flagstat_ok, [])
  /\ retval flagstat_ok = 0%Z
  /\ Forall benign (stderr_lines flagstat_ok)
  /\ fst (invoke scripted ["-c"; "in.bam"] ∅
            (fresh "pileup" strict_parsers [flagstat_ok]))
     = Raises (Other "ValueError" "malformed pileup line")
  /\ raising (fst (invoke scripted ["-c"; "in.bam"] ∅
                     (fresh "pileup" strict_parsers [flagstat_ok]))) = true.
Proof.
  split; [reflexivity|]. split; [reflexivity|].
  split; [apply suspicious_nil_iff; reflexivity|].
  split; reflexivity.
Qed.

(** The same dispatcher returns the value of the second parser when "-c"
    is not given, and the standard output when the raw flag is set. *)
Example strict_parsers_example :
  fst (invoke scripted ["in.bam"] ∅ (fresh "pileup" strict_parsers [flagstat_ok]))
  = Returns (Parsed 10%nat)
  /\ fst (invoke scripted ["-c"; "in.bam"] {["raw" := Py.Bool true]}
            (fresh "pileup" strict_parsers [flagstat_ok]))
     = Returns (Stdout (stdout flagstat_ok))
  /\ fst (invoke scripted ["in.bam"] ∅ (fresh "pileup" strict_parsers [truncated]))
     = Raises (Samtools (mkSamtoolsError
                           "csamtools returned with error 1: error: truncated file")).
Proof. repeat split; vm_compute; reflexivity. Qed.

Example flagstat_invoke_example :
  fst (invoke scripted ["in.bam"] ∅
         (fresh (R := evaluation nat) "flagstat" None [flagstat_ok]))
  = Returns (Stdout ("120 total" +:+ Py.nl)).
Proof. reflexivity. Qed.
